(** * Typed data categories of py-mmcif: a shallow embedding

    The development follows [mmcif/api/DataCategoryTyped.py]: the
    dictionary-driven casting pass ([applyTypes]), the string pass
    ([applyStringTypes]), the type query ([getAttributeInfo]) and the
    tolerance-aware comparison ([cmpAttributeValues], [__isClose]).

    Python values are a small tagged union, Python floats are the kernel's
    binary64 floats, exceptions are an explicit result type and the
    mutation of [self.data] and [self.__attributeTypeD] is explicit state
    passing. *)

From Stdlib Require Import ZArith String Ascii List Bool Lia.
From Stdlib Require Import Floats.
From stdpp Require Import base list gmap strings.

Local Open Scope string_scope.
Local Open Scope Z_scope.

(** ** Values and exceptions *)

(** The cells of a data category: [None], [str], [int] and [float]. *)
Inductive pyval : Type :=
  | VNone
  | VStr (s : string)
  | VInt (z : Z)
  | VFloat (f : float).

(** The exception classes the code can meet; all derive from [Exception]. *)
Inductive exn : Type :=
  | AttributeError
  | TypeError
  | ValueError
  | IndexError
  | KeyError
  | OverflowError
  | UnboundLocalError
  | Unsupported
  | OtherError (msg : string).

(** A computation that returns or raises. *)
Inductive res (A : Type) : Type :=
  | Ok (a : A)
  | Raise (e : exn).
Arguments Ok {A} a.
Arguments Raise {A} e.

Definition bind {A B : Type} (m : res A) (k : A -> res B) : res B :=
  match m with
  | Ok a => k a
  | Raise e => Raise e
  end.

Notation "x <- m ;; k" := (bind m (fun x => k))
  (at level 100, m at next level, right associativity).

Definition is_None (v : pyval) : bool :=
  match v with VNone => true | _ => false end.

Definition is_float (v : pyval) : bool :=
  match v with VFloat _ => true | _ => false end.

(** ** Comparisons of the Python data model *)

(** [int] against [float] is compared exactly, on the float's
    mantissa and exponent; a NaN is unordered ([None]). *)
Definition cmp_int_float (z : Z) (f : float) : option comparison :=
  match Prim2SF f with
  | S754_zero _ => Some (z ?= 0)
  | S754_infinity true => Some Gt
  | S754_infinity false => Some Lt
  | S754_nan => None
  | S754_finite s m e =>
      let sm := if s then Z.neg m else Z.pos m in
      if 0 <=? e then Some (z ?= sm * 2 ^ e)
      else Some (z * 2 ^ (- e) ?= sm)
  end.

(** [a == b] *)
Definition py_eq (a b : pyval) : bool :=
  match a, b with
  | VNone, VNone => true
  | VStr s, VStr t => String.eqb s t
  | VInt x, VInt y => x =? y
  | VFloat x, VFloat y => PrimFloat.eqb x y
  | VInt x, VFloat y =>
      match cmp_int_float x y with Some Eq => true | _ => false end
  | VFloat x, VInt y =>
      match cmp_int_float y x with Some Eq => true | _ => false end
  | _, _ => false
  end.

(** [a < b]; unordered types raise [TypeError]. *)
Definition py_lt (a b : pyval) : res bool :=
  match a, b with
  | VStr s, VStr t => Ok (String.ltb s t)
  | VInt x, VInt y => Ok (x <? y)
  | VFloat x, VFloat y => Ok (PrimFloat.ltb x y)
  | VInt x, VFloat y =>
      Ok (match cmp_int_float x y with Some Lt => true | _ => false end)
  | VFloat x, VInt y =>
      Ok (match cmp_int_float y x with Some Gt => true | _ => false end)
  | _, _ => Raise TypeError
  end.

(** [v in l] for a list [l] *)
Definition py_in (v : pyval) (l : list pyval) : bool :=
  existsb (py_eq v) l.

(** [l1 == l2] for lists: same length and element-wise [==]. *)
Fixpoint list_eq (l1 l2 : list pyval) : bool :=
  match l1, l2 with
  | [], [] => true
  | a :: l1', b :: l2' => py_eq a b && list_eq l1' l2'
  | _, _ => false
  end.

(** [needle in hay] for strings: substring test. *)
Fixpoint str_contains (needle hay : string) : bool :=
  String.prefix needle hay ||
  match hay with
  | EmptyString => false
  | String _ hay' => str_contains needle hay'
  end.

(** ["int" in x]: a substring test on a string, [TypeError] on the other
    values of [pyval], none of which is iterable. *)
Definition py_contains_str (needle : string) (x : pyval) : res bool :=
  match x with
  | VStr s => Ok (str_contains needle s)
  | _ => Raise TypeError
  end.

(** [max(a, b)] on floats: [b] when [b > a], else [a]. *)
Definition py_max (a b : float) : float :=
  if PrimFloat.ltb a b then b else a.

(** [sorted(l)]: a stable sort by [<].  A list of fewer than two elements
    is returned without any comparison; otherwise a pair that [<] does not
    order raises [TypeError].  (With NaN among the elements [<] is not an
    order and the result of the built-in depends on its merge strategy;
    no statement below sorts such a list.) *)
Fixpoint comparable_with (v : pyval) (l : list pyval) : res unit :=
  match l with
  | [] => Ok tt
  | w :: l' => _ <- py_lt v w ;; comparable_with v l'
  end.

Fixpoint all_comparable (l : list pyval) : res unit :=
  match l with
  | [] => Ok tt
  | v :: l' => _ <- comparable_with v (v :: l') ;; all_comparable l'
  end.

Fixpoint sorted_insert (v : pyval) (l : list pyval) : list pyval :=
  match l with
  | [] => [v]
  | w :: l' =>
      match py_lt w v with
      | Ok true => w :: sorted_insert v l'
      | _ => v :: w :: l'
      end
  end.

Definition sorted (l : list pyval) : res (list pyval) :=
  match l with
  | [] | [_] => Ok l
  | _ => _ <- all_comparable l ;; Ok (fold_right sorted_insert [] l)
  end.

(** ** The closeness predicate *)

(** [DataCategoryTyped.__isClose] *)
Definition __isClose (aV bV : pyval) (relTol absTol : float) : res bool :=
  if is_None aV && is_None bV then Ok true
  else if negb (is_None aV) && negb (is_None bV) && py_eq aV bV then Ok true
  else
    match aV, bV with
    | VFloat a, VFloat b =>
        Ok (PrimFloat.leb
              (PrimFloat.abs (PrimFloat.sub a b))
              (py_max (PrimFloat.mul relTol
                         (py_max (PrimFloat.abs a) (PrimFloat.abs b)))
                      absTol))
    | _, _ => Raise ValueError
    end.

(** ** Built-in conversions *)

(** The constructors [int], [float] and [str] of the Python runtime, which
    [self.__castD] maps the type names to.  They are parameters of the
    development: only their result types are fixed ([int(x)] is an [int] or
    raises, and so on). *)
Class Builtins : Type := {
  py_int : pyval -> res Z;
  py_float : pyval -> res float;
  py_str : pyval -> res string
}.

(** What [applyStringTypes] relies on: [str] is the identity on a string
    and renders no number or [None] as one of the two CIF markers. *)
Record str_faithful (B : Builtins) : Prop := {
  str_of_str : forall s, py_str (VStr s) = Ok s;
  str_not_marker : forall v s,
    py_str v = Ok s -> (s = "." \/ s = "?") -> v = VStr s
}.

(** [self.__castD = {"integer": int, "float": float, "string": str}];
    a missing key is the [KeyError] of the subscript. *)
Definition castD `{Builtins} (dataType : string) : res (pyval -> res pyval) :=
  if String.eqb dataType "integer" then Ok (fun v => z <- py_int v ;; Ok (VInt z))
  else if String.eqb dataType "float" then Ok (fun v => f <- py_float v ;; Ok (VFloat f))
  else if String.eqb dataType "string" then Ok (fun v => s <- py_str v ;; Ok (VStr s))
  else Raise KeyError.

(** ** The dictionary and the data category *)

(** The three queries of [DictionaryApi] the class uses; each returns a
    value ([None] for an item the dictionary does not know) or raises. *)
Record DictionaryApi : Type := {
  getTypeCode : string -> string -> res pyval;
  getTypePrimitive : string -> string -> res pyval;
  getMandatoryCode : string -> string -> res pyval
}.

(** Modelled from the spec: the base class [DataCategory] (raw table
    interface): a name, the ordered column-name list, the rows as mutable
    sequences of cells, the row count and the column-value accessor. *)
Record DataCategory : Type := {
  getName : string;
  getAttributeList : list string;
  data : list (list pyval)
}.

(** Modelled from the spec: the row count of [DataCategory]. *)
Definition getRowCount (dc : DataCategory) : nat := length (data dc).

(** [row[ii]] *)
Definition getitem (row : list pyval) (ii : nat) : res pyval :=
  match row !! ii with
  | Some v => Ok v
  | None => Raise IndexError
  end.

(** [row[ii] = v] *)
Definition setitem (row : list pyval) (ii : nat) (v : pyval) : res (list pyval) :=
  if bool_decide (ii < length row)%nat then Ok (<[ii := v]> row)
  else Raise IndexError.

(** [l.index(x)] *)
Fixpoint index_of (x : string) (l : list string) : res nat :=
  match l with
  | [] => Raise ValueError
  | y :: l' => if String.eqb y x then Ok 0%nat else i <- index_of x l' ;; Ok (S i)
  end.

(** [[row[idx] for row in rows]] *)
Fixpoint column_values (idx : nat) (rows : list (list pyval)) : res (list pyval) :=
  match rows with
  | [] => Ok []
  | row :: rows' =>
      v <- getitem row idx ;;
      vs <- column_values idx rows' ;;
      Ok (v :: vs)
  end.

(** Modelled from the spec: the column-value accessor of [DataCategory],
    the full value list of the named column. *)
Definition getAttributeValueList (dc : DataCategory) (atName : string) : res (list pyval) :=
  idx <- index_of atName (getAttributeList dc) ;;
  column_values idx (data dc).

(** An instance of [DataCategoryTyped]: the inherited table, the injected
    dictionary ([None] when the constructor got none), the
    [raiseExceptions] flag and the recorded column types. *)
Record DataCategoryTyped : Type := {
  dc :> DataCategory;
  dApi : option DictionaryApi;
  raiseExceptions : bool;
  attributeTypeD : gmap string string
}.

Definition set_data (self : DataCategoryTyped) (rows : list (list pyval)) : DataCategoryTyped :=
  {| dc := {| getName := getName self;
              getAttributeList := getAttributeList self;
              data := rows |};
     dApi := dApi self;
     raiseExceptions := raiseExceptions self;
     attributeTypeD := attributeTypeD self |}.

Definition set_type (self : DataCategoryTyped) (atName dataType : string) : DataCategoryTyped :=
  {| dc := dc self;
     dApi := dApi self;
     raiseExceptions := raiseExceptions self;
     attributeTypeD := <[atName := dataType]> (attributeTypeD self) |}.

(** [DataCategoryTyped.difficult_attributes] *)
Definition difficult_attributes : list string :=
  [ "concentration_range"; "pdb_chain_residue_range"; "axial_symmetry";
    "concentration_range"; "point_symmetry"; "used_frames_per_image";
    "temperature"; "pH" ].

(** [x in l] for a list of strings *)
Definition str_in (x : string) (l : list string) : bool :=
  existsb (String.eqb x) l.

(** [DataCategoryTyped.__getAttributeInfo] *)
Definition __getAttributeInfo (self : DataCategoryTyped) (atName : string) : res (string * bool) :=
  match dApi self with
  | None => Raise AttributeError
  | Some api =>
      cifDataType <- getTypeCode api (getName self) atName ;;
      cifPrimitiveType <- getTypePrimitive api (getName self) atName ;;
      mandatoryCode <- getMandatoryCode api (getName self) atName ;;
      let isMandatory :=
        py_in mandatoryCode [VStr "yes"; VStr "implicit"; VStr "implicit-ordinal"] in
      isInt <- py_contains_str "int" cifDataType ;;
      let dataType :=
        if isInt then "integer"
        else if py_eq cifPrimitiveType (VStr "numb") then "float"
        else "string" in
      let dataType :=
        if str_in atName difficult_attributes then "string" else dataType in
      Ok (dataType, isMandatory)
  end.

(** [DataCategoryTyped.getAttributeInfo]; the pair [(None, None)] is
    [(None, None)] here too. *)
Definition getAttributeInfo (self : DataCategoryTyped) (atName : string)
  : res (option string * option bool) :=
  match __getAttributeInfo self atName with
  | Ok (dataType, mandatoryCode) => Ok (Some dataType, Some mandatoryCode)
  | Raise _ => Ok (None, None)
  end.

(** ** The casting pass *)

(** The substitute of a column, lines 99 and 101 of [applyTypes]. *)
Definition missing_value (useCifUnknowns : bool)
    (missingValueString missingValueInteger missingValueFloat : pyval)
    (dataType : string) (isMandatory : bool) : pyval :=
  let missingValue :=
    if String.eqb dataType "integer" then missingValueInteger
    else if str_in dataType ["integer"; "float"] then missingValueFloat
    else missingValueString in
  if negb useCifUnknowns then missingValue
  else if isMandatory then VStr "." else VStr "?".

(** The right-hand side of line 104: the cast of [row[ii]], or the
    substitute for [None] and the two markers. *)
Definition cast_or_missing `{Builtins} (dataType : string) (missingValue : pyval)
    (row : list pyval) (ii : nat) : res pyval :=
  v <- getitem row ii ;;
  if negb (is_None v) && negb (py_in v [VStr "."; VStr "?"]) then
    cast <- castD dataType ;;
    cast v
  else Ok missingValue.

(** One row of the inner loop, lines 103 to 108: the handler reads
    [row[ii]] for the log record unless [ignoreCastErrors], then stores the
    substitute; what the handler raises leaves the loop. *)
Definition cast_row `{Builtins} (ignoreCastErrors : bool) (dataType : string)
    (missingValue : pyval) (ii : nat) (row : list pyval) : res (list pyval) :=
  match (v <- cast_or_missing dataType missingValue row ii ;; setitem row ii v) with
  | Ok row' => Ok row'
  | Raise _ =>
      _ <- (if negb ignoreCastErrors then getitem row ii else Ok VNone) ;;
      setitem row ii missingValue
  end.

(** [for row in self.data: ...]: the rows updated so far, and the
    exception that stopped the loop, if any. *)
Fixpoint for_rows (body : list pyval -> res (list pyval)) (rows : list (list pyval))
  : list (list pyval) * option exn :=
  match rows with
  | [] => ([], None)
  | row :: rows' =>
      match body row with
      | Ok row' =>
          let '(done, err) := for_rows body rows' in (row' :: done, err)
      | Raise e => (row :: rows', Some e)
      end
  end.

(** The loop state of both passes: the object and the local [ok]. *)
Definition pass_state : Type := (DataCategoryTyped * bool)%type.

(** The body of the column loop of [applyTypes], lines 98 to 112. *)
Definition applyTypes_column `{Builtins} (ignoreCastErrors useCifUnknowns : bool)
    (missingValueString missingValueInteger missingValueFloat : pyval)
    (ii : nat) (atName : string) (st : pass_state) : pass_state * option exn :=
  let '(self, ok) := st in
  match __getAttributeInfo self atName with
  | Raise e => (st, Some e)
  | Ok (dataType, isMandatory) =>
      let missingValue :=
        missing_value useCifUnknowns missingValueString missingValueInteger
          missingValueFloat dataType isMandatory in
      let '(rows, err) :=
        for_rows (cast_row ignoreCastErrors dataType missingValue ii) (data self) in
      match err with
      | Some e => ((set_data self rows, ok), Some e)
      | None => ((set_type (set_data self rows) atName dataType, true), None)
      end
  end.

(** [for ii, atName in enumerate(...)]: the columns from index [ii] on. *)
Fixpoint for_columns (body : nat -> string -> pass_state -> pass_state * option exn)
    (ii : nat) (atNames : list string) (st : pass_state) : pass_state * option exn :=
  match atNames with
  | [] => (st, None)
  | atName :: atNames' =>
      match body ii atName st with
      | (st', None) => for_columns body (S ii) atNames' st'
      | (st', Some e) => (st', Some e)
      end
  end.

(** The end of both passes: the outer handler re-raises when
    [self._raiseExceptions], and [ok] is returned otherwise. *)
Definition finish_pass (r : pass_state * option exn) : DataCategoryTyped * res bool :=
  let '((self, ok), err) := r in
  match err with
  | None => (self, Ok ok)
  | Some e => (self, if raiseExceptions self then Raise e else Ok ok)
  end.

(** The column loop of [applyTypes] from [ok = False]. *)
Definition applyTypes_loop `{Builtins} (self : DataCategoryTyped)
    (ignoreCastErrors useCifUnknowns : bool)
    (missingValueString missingValueInteger missingValueFloat : pyval)
  : pass_state * option exn :=
  for_columns
    (applyTypes_column ignoreCastErrors useCifUnknowns
       missingValueString missingValueInteger missingValueFloat)
    0%nat (getAttributeList self) (self, false).

(** [DataCategoryTyped.applyTypes]: the object after the call and what
    the call returns or raises. *)
Definition applyTypes `{Builtins} (self : DataCategoryTyped)
    (ignoreCastErrors useCifUnknowns : bool)
    (missingValueString missingValueInteger missingValueFloat : pyval)
  : DataCategoryTyped * res bool :=
  finish_pass
    (applyTypes_loop self ignoreCastErrors useCifUnknowns
       missingValueString missingValueInteger missingValueFloat).

(** ** The string pass *)

(** One row of the inner loop of [applyStringTypes], lines 150 to 153. *)
Definition string_row `{Builtins} (isMandatory : bool) (ii : nat) (row : list pyval)
  : res (list pyval) :=
  v <- getitem row ii ;;
  if is_None v || py_in v [VStr "."; VStr "?"] then
    setitem row ii (if isMandatory then VStr "." else VStr "?")
  else
    cast <- castD "string" ;;
    v' <- cast v ;;
    setitem row ii v'.

(** The body of the column loop of [applyStringTypes], lines 147 to 156. *)
Definition applyStringTypes_column `{Builtins} (ii : nat) (atName : string)
    (st : pass_state) : pass_state * option exn :=
  let '(self, ok) := st in
  match __getAttributeInfo self atName with
  | Raise e => (st, Some e)
  | Ok (_, isMandatory) =>
      let dataType := "string" in
      let '(rows, err) := for_rows (string_row isMandatory ii) (data self) in
      match err with
      | Some e => ((set_data self rows, ok), Some e)
      | None => ((set_type (set_data self rows) atName dataType, true), None)
      end
  end.

(** [DataCategoryTyped.applyStringTypes] *)
Definition applyStringTypes `{Builtins} (self : DataCategoryTyped)
  : DataCategoryTyped * res bool :=
  finish_pass
    (for_columns applyStringTypes_column 0%nat (getAttributeList self) (self, false)).

(** ** The comparison *)

(** The defaults of [floatRelTolerance] and [floatAbsTolerance]:
    the doubles nearest to [1.0e-05] and [1.0e-04]. *)
Definition floatRelTolerance_default : float := 0x1.4f8b588e368f1p-17%float.
Definition floatAbsTolerance_default : float := 0x1.a36e2eb1c432dp-14%float.

(** [list(sa & sb)]: the iteration order of a set of strings is not fixed
    by the language, so the comparison takes the list as an argument, and
    this predicate says which lists it can be: the common names, each once,
    in any order. *)
Definition common_names (self dcObj : DataCategory) (atNameComList : list string) : Prop :=
  NoDup atNameComList /\
  forall atName, atName ∈ atNameComList <->
    atName ∈ getAttributeList self /\ atName ∈ getAttributeList dcObj.

(** One such list: the common names in the order of [self]. *)
Definition common_names_in_order (self dcObj : DataCategory) : list string :=
  remove_dups
    (filter (fun atName => atName ∈ getAttributeList dcObj) (getAttributeList self)).

(** The two [for aV, bV in zip(...)] loops, lines 204 to 207 and 209 to
    213, on the local [same], which is unbound ([None]) until its first
    assignment.  The arguments of the [logger.info] call of line 212 are
    products and differences of floats (the pair has just compared
    unequal in the float branch of [__isClose]) and cannot raise. *)
Fixpoint close_loop (relTol absTol : float) (pairs : list (pyval * pyval))
    (same : option bool) : res (option bool) :=
  match pairs with
  | [] => Ok same
  | (aV, bV) :: pairs' =>
      s <- __isClose aV bV relTol absTol ;;
      if negb s then Ok (Some s)
      else close_loop relTol absTol pairs' (Some s)
  end.

(** The body of the loop over the common names up to the [append], lines
    194 to 213: the value of [same] after it. *)
Definition cmp_column (self : DataCategoryTyped) (dcObj : DataCategory)
    (ignoreOrder : bool) (relTol absTol : float)
    (same : option bool) (atName : string) : res (option bool) :=
  info <- __getAttributeInfo self atName ;;
  let dataType := fst info in
  if str_in dataType ["string"; "integer"] then
    if ignoreOrder then
      aVL <- getAttributeValueList self atName ;;
      aS <- sorted aVL ;;
      bVL <- getAttributeValueList dcObj atName ;;
      bS <- sorted bVL ;;
      Ok (Some (list_eq aS bS))
    else
      aVL <- getAttributeValueList self atName ;;
      bVL <- getAttributeValueList dcObj atName ;;
      Ok (Some (list_eq aVL bVL))
  else if str_in dataType ["float"] then
    aVL <- getAttributeValueList self atName ;;
    bVL <- getAttributeValueList dcObj atName ;;
    if ignoreOrder then
      aS <- sorted aVL ;;
      bS <- sorted bVL ;;
      close_loop relTol absTol (combine aS bS) same
    else
      close_loop relTol absTol (combine aVL bVL) same
  else Ok same.

(** Line 214, [rL.append((atName, same))]: reading an unbound local
    raises [UnboundLocalError]. *)
Definition read_same (same : option bool) : res bool :=
  match same with
  | Some b => Ok b
  | None => Raise UnboundLocalError
  end.

(** [for atName in atNameComList: ...]: the list [rL] built so far and the
    exception that stopped the loop, if any. *)
Fixpoint cmp_loop (self : DataCategoryTyped) (dcObj : DataCategory)
    (ignoreOrder : bool) (relTol absTol : float)
    (atNames : list string) (rL : list (string * bool)) (same : option bool)
  : list (string * bool) * option exn :=
  match atNames with
  | [] => (rL, None)
  | atName :: atNames' =>
      match (s <- cmp_column self dcObj ignoreOrder relTol absTol same atName ;;
             read_same s) with
      | Ok b =>
          cmp_loop self dcObj ignoreOrder relTol absTol atNames'
            (rL ++ [(atName, b)]) (Some b)
      | Raise e => (rL, Some e)
      end
  end.

(** [DataCategoryTyped.cmpAttributeValues], given the order in which the
    set of common names is iterated. *)
Definition cmpAttributeValues (self : DataCategoryTyped) (dcObj : DataCategory)
    (ignoreOrder : bool) (floatRelTolerance floatAbsTolerance : float)
    (atNameComList : list string) : res (list (string * bool)) :=
  let lenEq := Nat.eqb (getRowCount self) (getRowCount dcObj) in
  if negb lenEq then Ok (map (fun atName => (atName, false)) atNameComList)
  else
    match cmp_loop self dcObj ignoreOrder floatRelTolerance floatAbsTolerance
            atNameComList [] None with
    | (rL, None) => Ok rL
    | (rL, Some e) => if raiseExceptions self then Raise e else Ok rL
    end.

(** ** An instance of the built-in conversions

    The instance used to run the model on examples.  It agrees with
    CPython on the arguments it accepts and raises [Unsupported] on the
    others: [int] and [float] read ASCII decimal literals without
    underscores or exponent, [float] only those a double division of two
    exactly represented integers yields (at most 18 fraction digits and a
    digit string up to [2^53]), and [str] renders no float with a
    fraction. *)

Definition is_space (c : ascii) : bool :=
  let n := nat_of_ascii c in
  ((9 <=? n) && (n <=? 13) || (28 <=? n) && (n <=? 32))%nat.

Definition is_digit (c : ascii) : bool :=
  let n := nat_of_ascii c in ((48 <=? n) && (n <=? 57))%nat.

Fixpoint lstrip (l : list ascii) : list ascii :=
  match l with
  | c :: l' => if is_space c then lstrip l' else l
  | [] => []
  end.

Definition strip (l : list ascii) : list ascii :=
  rev (lstrip (rev (lstrip l))).

Definition split_sign (l : list ascii) : bool * list ascii :=
  match l with
  | "+"%char :: l' => (false, l')
  | "-"%char :: l' => (true, l')
  | _ => (false, l)
  end.

Fixpoint digits_value (acc : Z) (l : list ascii) : option Z :=
  match l with
  | [] => Some acc
  | c :: l' =>
      if is_digit c then digits_value (10 * acc + (Z.of_nat (nat_of_ascii c) - 48)) l'
      else None
  end.

Fixpoint split_dot (l : list ascii) : list ascii * option (list ascii) :=
  match l with
  | [] => ([], None)
  | c :: l' =>
      if Ascii.eqb c "."%char then ([], Some l')
      else let '(a, b) := split_dot l' in (c :: a, b)
  end.

Definition chars_within (allowed : ascii -> bool) (l : list ascii) : bool :=
  forallb allowed l.

Definition is_ascii (c : ascii) : bool := (nat_of_ascii c <? 128)%nat.

Definition example_int_of_str (s : string) : res Z :=
  let l := list_ascii_of_string s in
  if negb (chars_within is_ascii l) || existsb (Ascii.eqb "_"%char) l
  then Raise Unsupported
  else
    let '(neg, ds) := split_sign (strip l) in
    match ds with
    | [] => Raise ValueError
    | _ =>
        match digits_value 0 ds with
        | Some z => Ok (if neg then - z else z)
        | None => Raise ValueError
        end
    end.

Definition truncate (f : float) : res Z :=
  match Prim2SF f with
  | S754_zero _ => Ok 0
  | S754_infinity _ => Raise OverflowError
  | S754_nan => Raise ValueError
  | S754_finite s m e =>
      let z := if 0 <=? e then Z.pos m * 2 ^ e else Z.pos m / 2 ^ (- e) in
      Ok (if s then - z else z)
  end.

Definition example_int (v : pyval) : res Z :=
  match v with
  | VNone => Raise TypeError
  | VInt z => Ok z
  | VFloat f => truncate f
  | VStr s => example_int_of_str s
  end.

Definition float_of_small (z : Z) : float :=
  PrimFloat.of_uint63 (Uint63.of_Z z).

Definition float_letter (c : ascii) : bool :=
  existsb (Ascii.eqb c) (list_ascii_of_string "eE_iInNfFtTyYaA").

Definition example_float_of_str (s : string) : res float :=
  let l := list_ascii_of_string s in
  if negb (chars_within is_ascii l) || existsb float_letter l
  then Raise Unsupported
  else
    let '(neg, ds) := split_sign (strip l) in
    let '(ip, fp) := split_dot ds in
    let fp := match fp with Some fp => fp | None => [] end in
    match (ip ++ fp)%list with
    | [] => Raise ValueError
    | _ =>
        match digits_value 0 (ip ++ fp)%list with
        | None => Raise ValueError
        | Some m =>
            if (m <=? 2 ^ 53) && (length fp <=? 18)%nat then
              let q := PrimFloat.div (float_of_small m)
                         (float_of_small (10 ^ Z.of_nat (length fp))) in
              Ok (if neg then PrimFloat.opp q else q)
            else Raise Unsupported
        end
    end.

Definition example_float (v : pyval) : res float :=
  match v with
  | VNone => Raise TypeError
  | VFloat f => Ok f
  | VInt z =>
      if Z.abs z <=? 2 ^ 53 then
        Ok (if z <? 0 then PrimFloat.opp (float_of_small (- z)) else float_of_small z)
      else Raise Unsupported
  | VStr s => example_float_of_str s
  end.

Fixpoint digits_of_pos (fuel : nat) (z : Z) (acc : string) : string :=
  match fuel with
  | O => acc
  | S fuel' =>
      let acc' := String (ascii_of_nat (48 + Z.to_nat (z mod 10))) acc in
      if z <? 10 then acc' else digits_of_pos fuel' (z / 10) acc'
  end.

(** The decimal digits of an integer, with a leading minus sign. *)
Definition decimal (z : Z) : string :=
  let ds := digits_of_pos (S (Z.to_nat (Z.log2 (Z.abs z)))) (Z.abs z) "" in
  if z <? 0 then String "-"%char ds else ds.

(** The integer [m * 2^e], when it is one. *)
Definition integral_value (m : positive) (e : Z) : option Z :=
  if 0 <=? e then Some (Z.pos m * 2 ^ e)
  else if Z.pos m mod 2 ^ (- e) =? 0 then Some (Z.pos m / 2 ^ (- e))
  else None.

Definition example_str (v : pyval) : res string :=
  match v with
  | VNone => Ok "None"
  | VStr s => Ok s
  | VInt z => if Z.abs z <? 10 ^ 4300 then Ok (decimal z) else Raise Unsupported
  | VFloat f =>
      match Prim2SF f with
      | S754_nan => Ok "nan"
      | S754_infinity s => Ok (if s then "-inf" else "inf")
      | S754_zero s => Ok (if s then "-0.0" else "0.0")
      | S754_finite s m e =>
          match integral_value m e with
          | Some z =>
              if z <? 10 ^ 16 then
                Ok (String.append (decimal (if s then - z else z)) ".0")
              else Raise Unsupported
          | None => Raise Unsupported
          end
      end
  end.

Definition example_builtins : Builtins :=
  {| py_int := example_int; py_float := example_float; py_str := example_str |}.

(** ** Reading the passes *)

(** The value is of the named type: an [int] for "integer", a [float] for
    "float", a [str] for "string". *)
Definition has_type (dataType : string) (v : pyval) : bool :=
  match v with
  | VNone => false
  | VStr _ => String.eqb dataType "string"
  | VInt _ => String.eqb dataType "integer"
  | VFloat _ => String.eqb dataType "float"
  end.

(** The cell is [None] or one of the markers "." and "?". *)
Definition is_missing (v : pyval) : bool :=
  is_None v || py_in v [VStr "."; VStr "?"].

(** The cast of the column type raises on the value. *)
Definition cast_raises `{Builtins} (dataType : string) (v : pyval) : Prop :=
  exists e, (cast <- castD dataType ;; cast v) = Raise e.

(** What the casting pass stores in a cell that held [v]: the substitute
    for a missing cell and for a cast that raises, else the cast value. *)
Definition cast_value `{Builtins} (dataType : string) (missingValue v : pyval) : pyval :=
  if is_missing v then missingValue
  else
    match (cast <- castD dataType ;; cast v) with
    | Ok v' => v'
    | Raise _ => missingValue
    end.

(** The parts of the object neither pass changes. *)
Definition same_env (self self' : DataCategoryTyped) : Prop :=
  dApi self' = dApi self /\ getName self' = getName self /\
  getAttributeList self' = getAttributeList self /\
  raiseExceptions self' = raiseExceptions self.

(** A row before and after the casting of the columns [k], [k+1], ... named
    by [atNames]: each of these cells holds the [cast_value] of what it
    held, and the other cells are unchanged. *)
Definition cells_cast `{Builtins} (info : string -> res (string * bool))
    (subst : string -> bool -> pyval) (k : nat) (atNames : list string)
    (row row' : list pyval) : Prop :=
  length row' = length row /\
  (forall j atName, (k <= j)%nat -> atNames !! (j - k)%nat = Some atName ->
     exists dataType isMandatory v,
       info atName = Ok (dataType, isMandatory) /\
       row !! j = Some v /\
       row' !! j = Some (cast_value dataType (subst dataType isMandatory) v)) /\
  (forall j, (j < k \/ k + length atNames <= j)%nat -> row' !! j = row !! j).

(** The substitute in the words of the claim: the marker of the column
    when the markers are in use, else the default supplied for its type. *)
Definition substitute_as_claimed (useCifUnknowns : bool)
    (missingValueString missingValueInteger missingValueFloat : pyval)
    (dataType : string) (isMandatory : bool) : pyval :=
  if useCifUnknowns then (if isMandatory then VStr "." else VStr "?")
  else if String.eqb dataType "integer" then missingValueInteger
  else if String.eqb dataType "float" then missingValueFloat
  else missingValueString.

(** The marker [applyStringTypes] writes in a column. *)
Definition marker (isMandatory : bool) : pyval :=
  if isMandatory then VStr "." else VStr "?".

(** A cell as [applyStringTypes] leaves it: the marker of the column or a
    string that is not a marker. *)
Definition string_cell (isMandatory : bool) (c : pyval) : Prop :=
  c = marker isMandatory \/ exists s, c = VStr s /\ s <> "." /\ s <> "?".

(** The first [n] columns are as [applyStringTypes] leaves them: the names
    resolve, their recorded type is "string" and their cells are
    [string_cell]s. *)
Definition string_columns (n : nat) (self : DataCategoryTyped) : Prop :=
  forall j atName, (j < n)%nat -> getAttributeList self !! j = Some atName ->
    exists dataType isMandatory,
      __getAttributeInfo self atName = Ok (dataType, isMandatory) /\
      attributeTypeD self !! atName = Some "string" /\
      forall row, row ∈ data self ->
        exists c, row !! j = Some c /\ string_cell isMandatory c.

(** ** Example dictionary and categories *)

Definition example_item (atName : string) : option (string * string * string) :=
  if String.eqb atName "ordinal" then Some ("int", "numb", "yes")
  else if String.eqb atName "length" then Some ("float", "numb", "no")
  else if String.eqb atName "details" then Some ("text", "char", "no")
  else if String.eqb atName "pH" then Some ("float", "numb", "no")
  else if String.eqb atName "point_symmetry" then Some ("point_symmetry", "char", "no")
  else None.

Definition example_query (field : string * string * string -> string)
    (_ atName : string) : res pyval :=
  match example_item atName with
  | Some item => Ok (VStr (field item))
  | None => Ok VNone
  end.

(** A dictionary with five items of one category; the queries return
    [None] for any other item. *)
Definition example_api : DictionaryApi :=
  {| getTypeCode := example_query (fun item => fst (fst item));
     getTypePrimitive := example_query (fun item => snd (fst item));
     getMandatoryCode := example_query snd |}.

Definition example_typed (raiseExc : bool) (atNames : list string)
    (rows : list (list pyval)) : DataCategoryTyped :=
  {| dc := {| getName := "cell"; getAttributeList := atNames; data := rows |};
     dApi := Some example_api;
     raiseExceptions := raiseExc;
     attributeTypeD := ∅ |}.

Definition example_rows : list (list pyval) :=
  [ [VStr "3"; VStr "1.5"; VStr "x"];
    [VStr "."; VStr "1.2.3"; VNone] ].

(** A category of three columns (a mandatory integer, a float and a
    string) and two rows, before any cast. *)
Definition example_cell : DataCategoryTyped :=
  example_typed true ["ordinal"; "length"; "details"] example_rows.

(** Two categories without rows and one float column, "length". *)
Definition example_empty (raiseExc : bool) (atNames : list string) : DataCategoryTyped :=
  example_typed raiseExc atNames [].

(** A typed category and a raw one that agree on the string column and
    have a float against [None] in the float column. *)
Definition example_left : DataCategoryTyped :=
  example_typed false ["details"; "length"] [ [VStr "u"; VFloat 0x1.8p+0] ].

Definition example_right : DataCategory :=
  {| getName := "cell"; getAttributeList := ["details"; "length"];
     data := [ [VStr "u"; VNone] ] |}.

(** The value of the local [same] once [rL] holds the entries of the
    columns compared so far: the flag of the last entry. *)
Definition same_after (rL : list (string * bool)) : option bool :=
  snd <$> last rL.

(** The string starts with a character other than "." and "?". *)
Definition head_not_marker (s : string) : Prop :=
  exists c rest, s = String c rest /\ c <> "."%char /\ c <> "?"%char.

(** ** The constructor *)

(** [DataCategoryTyped.__init__]: the base-class constructor takes the
    name, the attribute list and the rows of [dataCategoryObj]; the type
    record starts empty, and [applyTypes] runs at once, its flag kept in
    [self.__typesSet].  An exception of [applyTypes] leaves the
    constructor, and no object is made.  Cells are immutable values and
    the model shares no row between objects, so [copyInputData] selects
    between two equal values. *)
Definition __init__ `{Builtins} (dataCategoryObj : DataCategory)
    (dictionaryApi : option DictionaryApi)
    (raiseExceptions copyInputData ignoreCastErrors useCifUnknowns : bool)
    (missingValueString missingValueInteger missingValueFloat : pyval)
  : res (DataCategoryTyped * bool) :=
  let self :=
    {| dc := {| getName := getName dataCategoryObj;
                getAttributeList := getAttributeList dataCategoryObj;
                data := data dataCategoryObj |};
       dApi := dictionaryApi;
       raiseExceptions := raiseExceptions;
       attributeTypeD := ∅ |} in
  let '(self', r) :=
    applyTypes self ignoreCastErrors useCifUnknowns
      missingValueString missingValueInteger missingValueFloat in
  typesSet <- r ;; Ok (self', typesSet).

(** ** Reading the passes, continued *)

(** The rows keep their number and their lengths. *)
Definition same_shape (rows rows' : list (list pyval)) : Prop :=
  Forall2 (fun row row' => length row' = length row) rows rows'.

(** What a second casting pass relies on: [int], [float] and [str] return
    a value of their own type as it is, and [str] renders nothing else as
    a marker. *)
Record casts_stable (B : Builtins) : Prop := {
  int_of_int : forall z, py_int (VInt z) = Ok z;
  float_of_float : forall f, py_float (VFloat f) = Ok f;
  str_stable : str_faithful B
}.

(** A cell as a casting pass with [useCifUnknowns] leaves it: the marker
    of the column, or a value of the column type that is not a marker. *)
Definition typed_cell (dataType : string) (isMandatory : bool) (c : pyval) : Prop :=
  c = marker isMandatory \/ (has_type dataType c = true /\ is_missing c = false).

(** The first [n] columns are as such a pass leaves them. *)
Definition typed_columns (n : nat) (self : DataCategoryTyped) : Prop :=
  forall j atName, (j < n)%nat -> getAttributeList self !! j = Some atName ->
    exists dataType isMandatory,
      __getAttributeInfo self atName = Ok (dataType, isMandatory) /\
      attributeTypeD self !! atName = Some dataType /\
      forall row, row ∈ data self ->
        exists c, row !! j = Some c /\ typed_cell dataType isMandatory c.

(** The value is not a NaN. *)
Definition not_nan (v : pyval) : Prop :=
  forall f, v = VFloat f -> PrimFloat.is_nan f = false.

(** The example category as the constructor leaves it. *)
Definition example_cast_cell : DataCategoryTyped :=
  example_typed true ["ordinal"; "length"; "details"]
    [ [VInt 3; VFloat 0x1.8p+0; VStr "x"]; [VStr "."; VStr "?"; VStr "?"] ].

(** * Properties *)

(** ** The closeness predicate *)

Lemma py_eq_refl (v : pyval) :
  (forall f, v = VFloat f -> PrimFloat.is_nan f = false) -> py_eq v v = true.
Proof.
  destruct v as [|s|z|f]; simpl; intros Hnan.
  - reflexivity.
  - apply String.eqb_refl.
  - apply Z.eqb_refl.
  - specialize (Hnan f eq_refl). unfold PrimFloat.is_nan in Hnan.
    now apply negb_false_iff in Hnan.
Qed.

(** C6: a pair that is not both [None], not a pair of present values that
    compare equal, and not a pair of floats makes [__isClose] raise
    [ValueError]; it never returns a flag for such a pair. *)
Theorem isClose_incomparable_raises (aV bV : pyval) (relTol absTol : float) :
  ~ (aV = VNone /\ bV = VNone) ->
  ~ (aV <> VNone /\ bV <> VNone /\ py_eq aV bV = true) ->
  ~ (is_float aV = true /\ is_float bV = true) ->
  __isClose aV bV relTol absTol = Raise ValueError.
Proof.
  intros Hnone Heq Hfloat. unfold __isClose.
  destruct (is_None aV && is_None bV) eqn:E1.
  { exfalso. apply Hnone. apply andb_true_iff in E1 as [Ha Hb].
    destruct aV, bV; try discriminate. auto. }
  destruct (negb (is_None aV) && negb (is_None bV) && py_eq aV bV) eqn:E2.
  { exfalso. apply Heq.
    apply andb_true_iff in E2 as [E2 He].
    apply andb_true_iff in E2 as [Ha Hb].
    repeat split; try assumption.
    - intros ->. discriminate.
    - intros ->. destruct aV; discriminate. }
  destruct aV, bV; try reflexivity.
  exfalso. apply Hfloat. split; reflexivity.
Qed.

Lemma isClose_incomparable_raises_witness :
  __isClose (VInt 1) (VStr "1") floatRelTolerance_default floatAbsTolerance_default
    = Raise ValueError
  /\ __isClose VNone (VFloat 2) floatRelTolerance_default floatAbsTolerance_default
    = Raise ValueError.
Proof.
  split.
  - apply (isClose_incomparable_raises (VInt 1) (VStr "1")).
    + intros [H _]. discriminate H.
    + intros (_ & _ & H). discriminate H.
    + intros [H _]. discriminate H.
  - apply (isClose_incomparable_raises VNone (VFloat 2)).
    + intros [_ H]. discriminate H.
    + intros (H & _). now apply H.
    + intros [H _]. discriminate H.
Defined.

(** C7 as stated fails: a NaN is a float, and [__isClose] of a NaN with
    itself is [False] at the default tolerances. *)
Lemma isClose_not_reflexive_on_floats :
  ~ (forall (x relTol absTol : float),
       __isClose (VFloat x) (VFloat x) relTol absTol = Ok true).
Proof.
  intros H.
  specialize (H PrimFloat.nan floatRelTolerance_default floatAbsTolerance_default).
  vm_compute in H. discriminate H.
Qed.

(** C7, amended: [__isClose] of a value with itself is [True] at every
    tolerance for every value of a cell other than a NaN: a float that is
    not a NaN, and an integer, string or [None] substitute as well. *)
Theorem isClose_reflexive_except_nan (v : pyval) (relTol absTol : float) :
  (forall f, v = VFloat f -> PrimFloat.is_nan f = false) ->
  __isClose v v relTol absTol = Ok true.
Proof.
  intros Hnan. unfold __isClose.
  destruct (is_None v) eqn:En; simpl; [reflexivity|].
  now rewrite (py_eq_refl v Hnan).
Qed.

Lemma isClose_reflexive_except_nan_witness :
  __isClose (VFloat 0x1.8p+1) (VFloat 0x1.8p+1)
    floatRelTolerance_default floatAbsTolerance_default = Ok true
  /\ __isClose (VFloat PrimFloat.infinity) (VFloat PrimFloat.infinity)
    floatRelTolerance_default floatAbsTolerance_default = Ok true.
Proof.
  split.
  - apply (isClose_reflexive_except_nan (VFloat 0x1.8p+1)).
    intros f Hf. injection Hf as <-. reflexivity.
  - apply (isClose_reflexive_except_nan (VFloat PrimFloat.infinity)).
    intros f Hf. injection Hf as <-. reflexivity.
Defined.

Lemma SFeqb_self_false (s : spec_float) : SFeqb s s = false -> s = S754_nan.
Proof.
  destruct s as [b|b| |b m e]; try reflexivity.
  - discriminate.
  - destruct b; discriminate.
  - unfold SFeqb, SFcompare.
    rewrite Z.compare_refl, Pos.compare_cont_refl. destruct b; discriminate.
Qed.

(** For a NaN the flag is [False] whatever the tolerances are. *)
Lemma isClose_nan_false (x relTol absTol : float) :
  PrimFloat.is_nan x = true ->
  __isClose (VFloat x) (VFloat x) relTol absTol = Ok false.
Proof.
  intros H. unfold PrimFloat.is_nan in H. apply negb_true_iff in H.
  unfold __isClose. simpl. rewrite H.
  rewrite FloatAxioms.eqb_spec in H. apply SFeqb_self_false in H.
  rewrite FloatAxioms.leb_spec, FloatAxioms.abs_spec, FloatAxioms.sub_spec, H.
  reflexivity.
Qed.

(** ** The type query *)

Lemma prefix_spec (needle hay : string) :
  String.prefix needle hay = true <-> exists post, hay = String.append needle post.
Proof.
  revert hay. induction needle as [|c needle IH]; intros hay; simpl.
  - split; [intros _; now exists hay | intros _; now destruct hay].
  - destruct hay as [|d hay]; simpl.
    + split; [discriminate | intros [post H]; discriminate H].
    + destruct (ascii_dec c d) as [->|Hne].
      * rewrite IH. split; intros [post H]; exists post.
        -- now rewrite H.
        -- now injection H.
      * split; [discriminate | intros [post H]].
        injection H as H1 H2. now symmetry in H1.
Qed.

(** [str_contains] is the substring test. *)
Lemma str_contains_spec (needle hay : string) :
  str_contains needle hay = true <->
  exists pre post, hay = String.append pre (String.append needle post).
Proof.
  induction hay as [|d hay IH]; cbn [str_contains].
  - rewrite orb_false_r, prefix_spec. split.
    + intros [post H]. now exists EmptyString, post.
    + intros (pre & post & H). destruct pre; [now exists post | discriminate H].
  - rewrite orb_true_iff, prefix_spec, IH. split.
    + intros [[post H] | (pre & post & H)].
      * now exists EmptyString, post.
      * exists (String d pre), post. simpl. now rewrite H.
    + intros (pre & post & H). destruct pre as [|c pre]; simpl in H.
      * left. now exists post.
      * right. exists pre, post. now injection H.
Qed.

Lemma str_in_spec (x : string) (l : list string) : str_in x l = true <-> In x l.
Proof.
  unfold str_in. rewrite existsb_exists. split.
  - intros (y & Hy & E). apply String.eqb_eq in E. now subst.
  - intros H. exists x. split; [assumption | apply String.eqb_refl].
Qed.

Lemma py_eq_str (v : pyval) (s : string) : py_eq v (VStr s) = true <-> v = VStr s.
Proof.
  destruct v; simpl; try (split; [discriminate | intros H; discriminate H]).
  rewrite String.eqb_eq. split; congruence.
Qed.

(** C2: when the dictionary answers the three queries, with a string as
    the type code, a name of [difficult_attributes] resolves to "string"
    whatever the answers are, and any other name resolves to "integer"
    when the type code contains "int", else to "float" when the primitive
    code is "numb", else to "string". *)
Theorem getAttributeInfo_classification (self : DataCategoryTyped)
    (api : DictionaryApi) (atName cifDataType : string)
    (cifPrimitiveType mandatoryCode : pyval) :
  dApi self = Some api ->
  getTypeCode api (getName self) atName = Ok (VStr cifDataType) ->
  getTypePrimitive api (getName self) atName = Ok cifPrimitiveType ->
  getMandatoryCode api (getName self) atName = Ok mandatoryCode ->
  exists dataType isMandatory,
    __getAttributeInfo self atName = Ok (dataType, isMandatory) /\
    (In atName difficult_attributes -> dataType = "string") /\
    (~ In atName difficult_attributes ->
       (str_contains "int" cifDataType = true -> dataType = "integer") /\
       (str_contains "int" cifDataType = false ->
          cifPrimitiveType = VStr "numb" -> dataType = "float") /\
       (str_contains "int" cifDataType = false ->
          cifPrimitiveType <> VStr "numb" -> dataType = "string")).
Proof.
  intros Hapi Hcode Hprim Hmand.
  unfold __getAttributeInfo. rewrite Hapi, Hcode, Hprim, Hmand.
  cbn [bind py_contains_str].
  eexists _, _. split; [reflexivity|].
  destruct (str_in atName difficult_attributes) eqn:Ein.
  - split; [reflexivity|]. intros Hn. exfalso. apply Hn. now apply str_in_spec.
  - split.
    + intros Hin. apply str_in_spec in Hin. congruence.
    + intros _. repeat split.
      * now intros ->.
      * intros -> ->. reflexivity.
      * intros -> Hne. destruct (py_eq cifPrimitiveType (VStr "numb")) eqn:E;
          [|reflexivity].
        apply py_eq_str in E. contradiction.
Qed.

Lemma getAttributeInfo_classification_witness :
  exists dataType isMandatory,
    __getAttributeInfo (example_typed true ["point_symmetry"] []) "point_symmetry"
      = Ok (dataType, isMandatory) /\
    (In "point_symmetry" difficult_attributes -> dataType = "string") /\
    (~ In "point_symmetry" difficult_attributes ->
       (str_contains "int" "point_symmetry" = true -> dataType = "integer") /\
       (str_contains "int" "point_symmetry" = false ->
          VStr "char" = VStr "numb" -> dataType = "float") /\
       (str_contains "int" "point_symmetry" = false ->
          VStr "char" <> VStr "numb" -> dataType = "string")).
Proof.
  apply (getAttributeInfo_classification
           (example_typed true ["point_symmetry"] []) example_api
           "point_symmetry" "point_symmetry" (VStr "char") (VStr "no"));
    reflexivity.
Defined.

(** C9: [getAttributeInfo] returns for every object and name: the pair of
    [__getAttributeInfo] when that returns, and [(None, None)] when it
    raises, whatever it raises; without a dictionary it is [(None, None)]. *)
Theorem getAttributeInfo_never_raises (self : DataCategoryTyped) (atName : string) :
  (exists r, getAttributeInfo self atName = Ok r) /\
  (forall e, __getAttributeInfo self atName = Raise e ->
             getAttributeInfo self atName = Ok (None, None)) /\
  (forall dataType isMandatory,
     __getAttributeInfo self atName = Ok (dataType, isMandatory) ->
     getAttributeInfo self atName = Ok (Some dataType, Some isMandatory)) /\
  (dApi self = None -> getAttributeInfo self atName = Ok (None, None)).
Proof.
  unfold getAttributeInfo.
  repeat split.
  - destruct (__getAttributeInfo self atName) as [[t m]|e]; eexists; reflexivity.
  - now intros e ->.
  - now intros t m ->.
  - intros Hnone. unfold __getAttributeInfo. now rewrite Hnone.
Qed.

(** ** The two loops *)

Section Loops.
Variable body : list pyval -> res (list pyval).

Lemma for_rows_ok (rows rows' : list (list pyval)) :
  for_rows body rows = (rows', None) ->
  Forall2 (fun r r' => body r = Ok r') rows rows'.
Proof.
  revert rows'. induction rows as [|r rows IH]; intros rows' Hrun; simpl in Hrun.
  - injection Hrun as <-. constructor.
  - destruct (body r) as [r'|e] eqn:Er; [|discriminate].
    destruct (for_rows body rows) as [done err] eqn:Erest.
    injection Hrun as <- ->. constructor; auto.
Qed.

Lemma for_rows_fix (rows : list (list pyval)) :
  (forall r, r ∈ rows -> body r = Ok r) -> for_rows body rows = (rows, None).
Proof.
  induction rows as [|r rows IH]; intros Hfix; simpl; [reflexivity|].
  rewrite (Hfix r) by apply list_elem_of_here.
  rewrite IH; [reflexivity|].
  intros r' Hr'. apply Hfix. now apply list_elem_of_further.
Qed.

Lemma for_rows_elem (rows rows' : list (list pyval)) (err : option exn) :
  for_rows body rows = (rows', err) ->
  forall r', r' ∈ rows' -> r' ∈ rows \/ exists r, r ∈ rows /\ body r = Ok r'.
Proof.
  revert rows' err. induction rows as [|r rows IH]; intros rows' err Hrun; simpl in Hrun.
  - injection Hrun as <- <-. intros r' Hr'. now left.
  - destruct (body r) as [r1|e] eqn:Er.
    + destruct (for_rows body rows) as [done err'] eqn:Erest.
      injection Hrun as <- <-. intros r' Hr'.
      apply elem_of_cons in Hr' as [->|Hr'].
      * right. exists r. split; [apply list_elem_of_here | assumption].
      * destruct (IH _ _ eq_refl r' Hr') as [Hin | (r0 & Hin & Hr0)].
        -- left. now apply list_elem_of_further.
        -- right. exists r0. split; [now apply list_elem_of_further | assumption].
    + injection Hrun as <- <-. intros r' Hr'. now left.
Qed.

Lemma for_rows_rerun (rows rows' : list (list pyval)) (err : option exn) :
  (forall r r', body r = Ok r' -> body r' = Ok r') ->
  for_rows body rows = (rows', err) ->
  for_rows body rows' = (rows', err).
Proof.
  intros Hidem. revert rows' err.
  induction rows as [|r rows IH]; intros rows' err Hrun; simpl in Hrun.
  - now injection Hrun as <- <-.
  - destruct (body r) as [r1|e] eqn:Er.
    + destruct (for_rows body rows) as [done err'] eqn:Erest.
      injection Hrun as <- <-. simpl.
      rewrite (Hidem r r1 Er), (IH _ _ eq_refl). reflexivity.
    + injection Hrun as <- <-. simpl. now rewrite Er.
Qed.
End Loops.

Lemma Forall2_compose {A B C : Type} (P : A -> B -> Prop) (Q : B -> C -> Prop)
    (R : A -> C -> Prop) (l1 : list A) (l2 : list B) (l3 : list C) :
  (forall a b c, P a b -> Q b c -> R a c) ->
  Forall2 P l1 l2 -> Forall2 Q l2 l3 -> Forall2 R l1 l3.
Proof.
  intros HR H12. revert l3.
  induction H12 as [|a b l1 l2 Hab _ IH]; intros l3 H23.
  - inversion H23. constructor.
  - inversion H23 as [|b' c l2' l3' Hbc H23' E1 E2]; subst.
    constructor; eauto.
Qed.

Lemma Forall2_refl_on {A : Type} (P : A -> A -> Prop) (l : list A) :
  (forall a, P a a) -> Forall2 P l l.
Proof. intros HP. induction l; constructor; auto. Qed.

Lemma same_env_refl (self : DataCategoryTyped) : same_env self self.
Proof. repeat split. Qed.

Lemma same_env_trans (s1 s2 s3 : DataCategoryTyped) :
  same_env s1 s2 -> same_env s2 s3 -> same_env s1 s3.
Proof.
  intros (A1 & A2 & A3 & A4) (B1 & B2 & B3 & B4).
  repeat split; congruence.
Qed.

Lemma same_env_update (self : DataCategoryTyped) (rows : list (list pyval))
    (atName dataType : string) :
  same_env self (set_data self rows) /\
  same_env self (set_type (set_data self rows) atName dataType).
Proof. repeat split. Qed.

Lemma getAttributeInfo_env (self self' : DataCategoryTyped) (atName : string) :
  same_env self self' -> __getAttributeInfo self' atName = __getAttributeInfo self atName.
Proof.
  intros (Hapi & Hname & _). unfold __getAttributeInfo. now rewrite Hapi, Hname.
Qed.

Lemma set_data_id (self : DataCategoryTyped) : set_data self (data self) = self.
Proof. now destruct self as [[n a d] api r t]. Qed.

Lemma for_columns_env (body : nat -> string -> pass_state -> pass_state * option exn) :
  (forall ii atName st, same_env (fst st) (fst (fst (body ii atName st)))) ->
  forall atNames k st,
    same_env (fst st) (fst (fst (for_columns body k atNames st))).
Proof.
  intros Hbody. induction atNames as [|atName atNames IH]; intros k st.
  - apply same_env_refl.
  - cbn [for_columns]. specialize (Hbody k atName st).
    destruct (body k atName st) as [st' [e|]]; [exact Hbody|].
    eapply same_env_trans; [exact Hbody | apply IH].
Qed.

Lemma applyTypes_column_env `{B : Builtins} (ignoreCastErrors useCifUnknowns : bool)
    (missingValueString missingValueInteger missingValueFloat : pyval)
    (ii : nat) (atName : string) (st : pass_state) :
  same_env (fst st)
    (fst (fst (applyTypes_column ignoreCastErrors useCifUnknowns missingValueString
                 missingValueInteger missingValueFloat ii atName st))).
Proof.
  destruct st as [self ok]. unfold applyTypes_column.
  destruct (__getAttributeInfo self atName) as [[dataType isMandatory]|e];
    [|apply same_env_refl].
  destruct (for_rows _ (data self)) as [rows [e|]]; repeat split.
Qed.

Lemma applyStringTypes_column_env `{B : Builtins} (ii : nat) (atName : string)
    (st : pass_state) :
  same_env (fst st) (fst (fst (applyStringTypes_column ii atName st))).
Proof.
  destruct st as [self ok]. unfold applyStringTypes_column.
  destruct (__getAttributeInfo self atName) as [[dataType isMandatory]|e];
    [|apply same_env_refl].
  destruct (for_rows _ (data self)) as [rows [e|]]; repeat split.
Qed.

(** ** The casting pass *)

Section Casting.
Context `{B : Builtins}.
Variables (ignoreCastErrors useCifUnknowns : bool).
Variables (missingValueString missingValueInteger missingValueFloat : pyval).

Let subst := missing_value useCifUnknowns missingValueString
               missingValueInteger missingValueFloat.
Let column := applyTypes_column ignoreCastErrors useCifUnknowns
                missingValueString missingValueInteger missingValueFloat.

Lemma setitem_some (row : list pyval) (ii : nat) (v w : pyval) :
  row !! ii = Some v -> setitem row ii w = Ok (<[ii := w]> row).
Proof.
  intros Hv. unfold setitem.
  apply lookup_lt_Some in Hv. now rewrite bool_decide_eq_true_2.
Qed.

Lemma setitem_none (row : list pyval) (ii : nat) (w : pyval) :
  row !! ii = None -> setitem row ii w = Raise IndexError.
Proof.
  intros Hv. unfold setitem.
  apply lookup_ge_None in Hv. rewrite bool_decide_eq_false_2; [reflexivity | lia].
Qed.

(** A row that has the cell: the store always happens, with the cast
    value or with the substitute. *)
Lemma cast_row_some (dataType : string) (missingValue : pyval) (ii : nat)
    (row : list pyval) (v : pyval) :
  row !! ii = Some v ->
  cast_row ignoreCastErrors dataType missingValue ii row
    = Ok (<[ii := cast_value dataType missingValue v]> row).
Proof.
  intros Hv. unfold cast_row, cast_or_missing, cast_value, is_missing, getitem.
  rewrite Hv. cbn [bind]. rewrite <- negb_orb.
  destruct (is_None v || py_in v [VStr "."; VStr "?"]); cbn [negb bind].
  - now rewrite (setitem_some row ii v).
  - destruct (castD dataType) as [cast|e]; cbn [bind].
    + destruct (cast v) as [v'|e]; cbn [bind].
      * now rewrite (setitem_some row ii v).
      * rewrite (setitem_some row ii v) by assumption.
        now destruct ignoreCastErrors.
    + rewrite (setitem_some row ii v) by assumption.
      now destruct ignoreCastErrors.
Qed.

(** A row too short for the column: the [IndexError] leaves the handler. *)
Lemma cast_row_none (dataType : string) (missingValue : pyval) (ii : nat)
    (row : list pyval) :
  row !! ii = None ->
  cast_row ignoreCastErrors dataType missingValue ii row = Raise IndexError.
Proof.
  intros Hv. unfold cast_row, cast_or_missing, getitem.
  rewrite Hv. cbn [bind].
  destruct ignoreCastErrors; cbn [negb bind]; [|reflexivity].
  now apply setitem_none.
Qed.

Lemma cast_row_ok (dataType : string) (missingValue : pyval) (ii : nat)
    (row row' : list pyval) :
  cast_row ignoreCastErrors dataType missingValue ii row = Ok row' ->
  exists v, row !! ii = Some v /\
            row' = <[ii := cast_value dataType missingValue v]> row.
Proof.
  intros Hrun. destruct (row !! ii) as [v|] eqn:Hv.
  - rewrite (cast_row_some _ _ _ _ v Hv) in Hrun. injection Hrun as <-. eauto.
  - rewrite (cast_row_none _ _ _ _ Hv) in Hrun. discriminate.
Qed.

(** The cast value is of the column type or is the substitute. *)
Lemma cast_value_typed (dataType : string) (missingValue v : pyval) :
  has_type dataType (cast_value dataType missingValue v) = true \/
  cast_value dataType missingValue v = missingValue.
Proof.
  unfold cast_value. destruct (is_missing v); [now right|].
  unfold castD.
  destruct (String.eqb dataType "integer") eqn:Ei; cbn [bind].
  { destruct (py_int v); cbn [bind]; [left | now right]. exact Ei. }
  destruct (String.eqb dataType "float") eqn:Ef; cbn [bind].
  { destruct (py_float v); cbn [bind]; [left | now right]. exact Ef. }
  destruct (String.eqb dataType "string") eqn:Es; cbn [bind].
  { destruct (py_str v); cbn [bind]; [left | now right]. exact Es. }
  now right.
Qed.

Lemma applyTypes_column_ok (ii : nat) (atName : string)
    (self self' : DataCategoryTyped) (ok ok' : bool) :
  column ii atName (self, ok) = ((self', ok'), None) ->
  exists dataType isMandatory rows,
    __getAttributeInfo self atName = Ok (dataType, isMandatory) /\
    for_rows (cast_row ignoreCastErrors dataType (subst dataType isMandatory) ii)
      (data self) = (rows, None) /\
    self' = set_type (set_data self rows) atName dataType /\ ok' = true.
Proof.
  unfold column, applyTypes_column.
  destruct (__getAttributeInfo self atName) as [[dataType isMandatory]|e];
    [|discriminate].
  fold (subst dataType isMandatory).
  destruct (for_rows _ (data self)) as [rows [e|]] eqn:Erows; [discriminate|].
  intros Hrun. inversion Hrun; subst.
  exists dataType, isMandatory, rows.
  split; [reflexivity|]. split; [exact Erows|]. split; reflexivity.
Qed.

(** The state after a run of the column loop that no exception stops. *)
Lemma applyTypes_columns_cells (atNames : list string) :
  forall (k : nat) (self self' : DataCategoryTyped) (ok ok' : bool),
    for_columns column k atNames (self, ok) = ((self', ok'), None) ->
    same_env self self' /\
    Forall (fun atName => exists info, __getAttributeInfo self atName = Ok info)
      atNames /\
    Forall2 (cells_cast (__getAttributeInfo self) subst k atNames)
      (data self) (data self').
Proof.
  induction atNames as [|atName atNames IH]; intros k self self' ok ok' Hrun.
  - simpl in Hrun. inversion Hrun; subst. split; [apply same_env_refl|].
    split; [constructor|].
    apply Forall2_refl_on. intros row.
    split; [reflexivity|]. split; [|reflexivity].
    intros j a _ Hj. now rewrite lookup_nil in Hj.
  - cbn [for_columns] in Hrun.
    destruct (column k atName (self, ok)) as [[self1 ok1] [e|]] eqn:Ecol;
      [discriminate|].
    apply applyTypes_column_ok in Ecol
      as (dataType & isMandatory & rows & Hinfo & Hrows & -> & ->).
    apply IH in Hrun as (Henv & Hinfos & Hcells).
    pose proof (proj2 (same_env_update self rows atName dataType)) as Henv1.
    split; [now apply (same_env_trans _ _ _ Henv1)|].
    split; [constructor; [eauto | exact Hinfos]|].
    apply for_rows_ok in Hrows.
    eapply Forall2_compose; [|exact Hrows|exact Hcells].
    intros row row1 row' Hrow1 (Hlen & Hin & Hout).
    apply cast_row_ok in Hrow1 as (v & Hv & ->).
    pose proof (lookup_lt_Some _ _ _ Hv) as Hlt.
    rewrite length_insert in Hlen.
    split; [exact Hlen|]. split.
    + intros j a Hkj Hj.
      destruct (decide (j = k)) as [->|Hne].
      * rewrite Nat.sub_diag in Hj. injection Hj as <-.
        exists dataType, isMandatory, v. repeat split; try assumption.
        rewrite Hout by lia. now apply list_lookup_insert_eq.
      * replace (j - k)%nat with (S (j - S k)) in Hj by lia. simpl in Hj.
        destruct (Hin j a) as (dt & m & w & Hi & Hw & Hw'); [lia|assumption|].
        exists dt, m, w. repeat split; try assumption.
        now rewrite list_lookup_insert_ne in Hw by lia.
    + intros j Hj. simpl in Hj.
      rewrite Hout by lia. apply list_lookup_insert_ne. lia.
Qed.
End Casting.

Lemma missing_value_as_claimed (useCifUnknowns : bool)
    (missingValueString missingValueInteger missingValueFloat : pyval)
    (dataType : string) (isMandatory : bool) :
  missing_value useCifUnknowns missingValueString missingValueInteger
    missingValueFloat dataType isMandatory
  = substitute_as_claimed useCifUnknowns missingValueString missingValueInteger
      missingValueFloat dataType isMandatory.
Proof.
  unfold missing_value, substitute_as_claimed, str_in.
  destruct useCifUnknowns; cbn [negb existsb]; [reflexivity|].
  destruct (String.eqb dataType "integer"); [reflexivity|].
  cbn [orb]. now rewrite orb_false_r.
Qed.

Lemma cast_value_missing `{B : Builtins} (dataType : string) (missingValue v : pyval) :
  is_missing v = true \/ cast_raises dataType v ->
  cast_value dataType missingValue v = missingValue.
Proof.
  unfold cast_value, cast_raises. intros [Hm | [e He]].
  - now rewrite Hm.
  - destruct (is_missing v); [reflexivity|]. now rewrite He.
Qed.

(** X17: after a casting pass that runs to its end (no exception reaches
    the outer handler of [applyTypes]; with [raiseExceptions] set, every
    call that returns), every column resolves to a type, and in every row
    the cell of the column is a value of that type or the substitute of
    the column, whatever [ignoreCastErrors] is.  With [raiseExceptions]
    unset the returned flag alone does not tell such a pass from an
    aborted one. *)
Theorem applyTypes_cells_typed `{B : Builtins} (self : DataCategoryTyped)
    (ignoreCastErrors useCifUnknowns : bool)
    (missingValueString missingValueInteger missingValueFloat : pyval)
    (self' : DataCategoryTyped) (ok : bool) :
  applyTypes_loop self ignoreCastErrors useCifUnknowns
    missingValueString missingValueInteger missingValueFloat = ((self', ok), None) ->
  forall ii atName, getAttributeList self' !! ii = Some atName ->
    exists dataType isMandatory,
      __getAttributeInfo self' atName = Ok (dataType, isMandatory) /\
      forall row, row ∈ data self' ->
        exists c, row !! ii = Some c /\
          (has_type dataType c = true \/
           c = missing_value useCifUnknowns missingValueString
                 missingValueInteger missingValueFloat dataType isMandatory).
Proof.
  intros Hrun ii atName Hname.
  apply applyTypes_columns_cells in Hrun as (Henv & Hinfos & Hcells).
  pose proof Henv as (_ & _ & Hattrs & _). rewrite Hattrs in Hname.
  rewrite (getAttributeInfo_env self self' atName Henv).
  rewrite Forall_forall in Hinfos.
  destruct (Hinfos atName) as [[dataType isMandatory] Hinfo].
  { now apply list_elem_of_lookup_2 in Hname. }
  exists dataType, isMandatory. split; [exact Hinfo|].
  intros row' Hrow'.
  apply list_elem_of_lookup_1 in Hrow' as [r Hr].
  destruct (Forall2_lookup_r _ _ _ _ _ Hcells Hr) as (row & _ & _ & Hin & _).
  destruct (Hin ii atName) as (dt & m & v & Hi & _ & Hv).
  { lia. }
  { now rewrite Nat.sub_0_r. }
  rewrite Hinfo in Hi. injection Hi as <- <-.
  eexists. split; [exact Hv|]. apply cast_value_typed.
Qed.

Lemma applyTypes_cells_typed_witness :
  exists dataType isMandatory,
    __getAttributeInfo
      (fst (fst (applyTypes_loop (H := example_builtins) example_cell
                   false true VNone VNone VNone))) "length"
      = Ok (dataType, isMandatory) /\
    forall row,
      row ∈ data (fst (fst (applyTypes_loop (H := example_builtins) example_cell
                              false true VNone VNone VNone))) ->
      exists c, row !! 1%nat = Some c /\
        (has_type dataType c = true \/
         c = missing_value true VNone VNone VNone dataType isMandatory).
Proof.
  refine (applyTypes_cells_typed (B := example_builtins) example_cell
            false true VNone VNone VNone _ true _ 1%nat "length" _);
    vm_compute; reflexivity.
Defined.

(** With [raiseExceptions] set, a call of [applyTypes] that returns has
    run the pass to its end. *)
Lemma applyTypes_returns_completed `{B : Builtins} (self : DataCategoryTyped)
    (ignoreCastErrors useCifUnknowns : bool)
    (missingValueString missingValueInteger missingValueFloat : pyval)
    (self' : DataCategoryTyped) (ok : bool) :
  raiseExceptions self = true ->
  applyTypes self ignoreCastErrors useCifUnknowns
    missingValueString missingValueInteger missingValueFloat = (self', Ok ok) ->
  applyTypes_loop self ignoreCastErrors useCifUnknowns
    missingValueString missingValueInteger missingValueFloat = ((self', ok), None).
Proof.
  intros Hraise. unfold applyTypes, finish_pass.
  pose proof (for_columns_env _
                (applyTypes_column_env ignoreCastErrors useCifUnknowns
                   missingValueString missingValueInteger missingValueFloat)
                (getAttributeList self) 0%nat (self, false)) as Henv.
  fold (applyTypes_loop self ignoreCastErrors useCifUnknowns
          missingValueString missingValueInteger missingValueFloat) in Henv.
  destruct (applyTypes_loop _ _ _ _ _ _) as [[self1 ok1] [e|]].
  - destruct Henv as (_ & _ & _ & Hr). cbn [fst] in Hr.
    rewrite Hr, Hraise. discriminate.
  - intros H. now inversion H.
Qed.

(** C1 fails on the code.  [ok = True] is set inside the column loop, so
    with [raiseExceptions] unset [applyTypes] returns [True], the value its
    docstring gives for success, as soon as one column was cast, whatever
    happens later.  Here the dictionary does not know the second column:
    the pass stops there, the call returns [True], and in the third
    column, which resolves to "float" with the substitute "?", the first
    row still holds the text "x", neither a float nor the substitute. *)
Theorem applyTypes_flag_after_abort :
  let r := applyTypes (H := example_builtins)
             (example_typed false ["ordinal"; "unknown"; "length"] example_rows)
             false true VNone VNone VNone in
  snd r = Ok true /\
  data (fst r) = [ [VInt 3; VStr "1.5"; VStr "x"]; [VStr "."; VStr "1.2.3"; VNone] ] /\
  getAttributeList (fst r) !! 2%nat = Some "length" /\
  __getAttributeInfo (fst r) "length" = Ok ("float", false) /\
  has_type "float" (VStr "x") = false /\
  VStr "x" <> missing_value true VNone VNone VNone "float" false.
Proof.
  vm_compute. repeat split; try reflexivity. discriminate.
Qed.

(** Read on the returned flag, the guarantee of a typed table does not
    hold: a call that returns [True] need not leave every cell typed or
    substituted. *)
Lemma applyTypes_true_not_typed :
  ~ (forall (B : Builtins) (self self' : DataCategoryTyped)
            (ignoreCastErrors useCifUnknowns : bool)
            (missingValueString missingValueInteger missingValueFloat : pyval),
       applyTypes self ignoreCastErrors useCifUnknowns
         missingValueString missingValueInteger missingValueFloat
       = (self', Ok true) ->
       forall ii atName, getAttributeList self' !! ii = Some atName ->
         exists dataType isMandatory,
           __getAttributeInfo self' atName = Ok (dataType, isMandatory) /\
           forall row, row ∈ data self' ->
             exists c, row !! ii = Some c /\
               (has_type dataType c = true \/
                c = missing_value useCifUnknowns missingValueString
                      missingValueInteger missingValueFloat dataType isMandatory)).
Proof.
  intros Hall.
  destruct (Hall example_builtins
              (example_typed false ["ordinal"; "unknown"; "length"] example_rows)
              _ false true VNone VNone VNone eq_refl 2%nat "length" eq_refl)
    as (dataType & isMandatory & Hinfo & Hrows).
  vm_compute in Hinfo. injection Hinfo as <- <-.
  destruct (Hrows [VInt 3; VStr "1.5"; VStr "x"]) as (c & Hc & Hcell).
  { vm_compute. apply list_elem_of_here. }
  cbn in Hc. injection Hc as <-.
  destruct Hcell as [H|H]; discriminate H.
Qed.

(** C3: in a casting pass that runs to its end, the substitute of each
    column is the marker "." (mandatory) or "?" (otherwise) when
    [useCifUnknowns] is set, else [missingValueInteger] for an "integer"
    column, [missingValueFloat] for a "float" column and
    [missingValueString] for any other; and every cell that was missing, or
    whose cast raised, holds that very value afterwards, with no cast
    applied to it. *)
Theorem applyTypes_missing_substitute `{B : Builtins} (self : DataCategoryTyped)
    (ignoreCastErrors useCifUnknowns : bool)
    (missingValueString missingValueInteger missingValueFloat : pyval)
    (self' : DataCategoryTyped) (ok : bool) :
  applyTypes_loop self ignoreCastErrors useCifUnknowns
    missingValueString missingValueInteger missingValueFloat = ((self', ok), None) ->
  forall ii atName, getAttributeList self !! ii = Some atName ->
    exists dataType isMandatory,
      __getAttributeInfo self atName = Ok (dataType, isMandatory) /\
      missing_value useCifUnknowns missingValueString missingValueInteger
        missingValueFloat dataType isMandatory
      = substitute_as_claimed useCifUnknowns missingValueString
          missingValueInteger missingValueFloat dataType isMandatory /\
      Forall2
        (fun row row' =>
           exists v, row !! ii = Some v /\
             (is_missing v = true \/ cast_raises dataType v ->
              row' !! ii = Some
                (substitute_as_claimed useCifUnknowns missingValueString
                   missingValueInteger missingValueFloat dataType isMandatory)))
        (data self) (data self').
Proof.
  intros Hrun ii atName Hname.
  apply applyTypes_columns_cells in Hrun as (_ & Hinfos & Hcells).
  rewrite Forall_forall in Hinfos.
  destruct (Hinfos atName) as [[dataType isMandatory] Hinfo].
  { now apply list_elem_of_lookup_2 in Hname. }
  exists dataType, isMandatory. split; [exact Hinfo|].
  split; [apply missing_value_as_claimed|].
  eapply Forall2_impl; [exact Hcells|].
  intros row row' (_ & Hin & _).
  destruct (Hin ii atName) as (dt & m & v & Hi & Hv & Hv').
  { lia. }
  { now rewrite Nat.sub_0_r. }
  rewrite Hinfo in Hi. injection Hi as <- <-.
  exists v. split; [exact Hv|]. intros Hmiss.
  rewrite Hv', (cast_value_missing _ _ _ Hmiss).
  now rewrite missing_value_as_claimed.
Qed.

Lemma applyTypes_missing_substitute_witness :
  exists dataType isMandatory,
    __getAttributeInfo example_cell "ordinal" = Ok (dataType, isMandatory) /\
    missing_value false VNone (VStr "n/a") (VFloat 0) dataType isMandatory
    = substitute_as_claimed false VNone (VStr "n/a") (VFloat 0)
        dataType isMandatory /\
    Forall2
      (fun row row' =>
         exists v, row !! 0%nat = Some v /\
           (is_missing v = true \/ cast_raises (H := example_builtins) dataType v ->
            row' !! 0%nat = Some
              (substitute_as_claimed false VNone (VStr "n/a") (VFloat 0)
                 dataType isMandatory)))
      (data example_cell)
      (data (fst (fst (applyTypes_loop (H := example_builtins) example_cell
                         true false VNone (VStr "n/a") (VFloat 0))))).
Proof.
  refine (applyTypes_missing_substitute (B := example_builtins) example_cell
            true false VNone (VStr "n/a") (VFloat 0) _ true _ 0%nat "ordinal" _);
    vm_compute; reflexivity.
Defined.

(** The substitute of the integer column of the example is the string it
    was given, not an integer. *)
Example missing_integer_stored_as_supplied :
  data (fst (applyTypes (H := example_builtins) example_cell
               true false VNone (VStr "n/a") (VFloat 0)))
  = [ [VInt 3; VFloat 0x1.8p+0; VStr "x"]; [VStr "n/a"; VFloat 0; VNone] ].
Proof. vm_compute. reflexivity. Qed.

(** ** The comparison *)

Lemma common_names_in_order_spec (self dcObj : DataCategory) :
  common_names self dcObj (common_names_in_order self dcObj).
Proof.
  unfold common_names, common_names_in_order. split.
  - apply NoDup_remove_dups.
  - intros atName. rewrite elem_of_remove_dups, list_elem_of_filter. tauto.
Qed.

(** C4: when the row counts differ, [cmpAttributeValues] returns the pair
    [(atName, False)] for each name of the list of common names, and
    nothing else, for every content of the two tables, every dictionary,
    every tolerance and either [ignoreOrder]; so every common column is
    reported unequal. *)
Theorem cmp_row_count_mismatch (self : DataCategoryTyped) (dcObj : DataCategory)
    (ignoreOrder : bool) (floatRelTolerance floatAbsTolerance : float)
    (atNameComList : list string) :
  common_names self dcObj atNameComList ->
  getRowCount self <> getRowCount dcObj ->
  cmpAttributeValues self dcObj ignoreOrder floatRelTolerance floatAbsTolerance
    atNameComList = Ok (map (fun atName => (atName, false)) atNameComList) /\
  forall atName,
    atName ∈ getAttributeList self /\ atName ∈ getAttributeList dcObj <->
    (atName, false) ∈ map (fun atName => (atName, false)) atNameComList.
Proof.
  intros [_ Hcommon] Hlen. split.
  - unfold cmpAttributeValues.
    apply Nat.eqb_neq in Hlen. now rewrite Hlen.
  - intros atName. rewrite <- Hcommon. split.
    + intros Hin. apply list_elem_of_In, in_map_iff. exists atName.
      split; [reflexivity | now apply list_elem_of_In].
    + intros Hin. apply list_elem_of_In, in_map_iff in Hin as (a & E & Hin).
      injection E as ->. now apply list_elem_of_In.
Qed.

Lemma cmp_row_count_mismatch_witness :
  cmpAttributeValues example_cell example_right true
    floatRelTolerance_default floatAbsTolerance_default
    (common_names_in_order example_cell example_right)
  = Ok (map (fun atName => (atName, false))
          (common_names_in_order example_cell example_right)) /\
  forall atName,
    atName ∈ getAttributeList example_cell /\
    atName ∈ getAttributeList example_right <->
    (atName, false) ∈ map (fun atName => (atName, false))
                        (common_names_in_order example_cell example_right).
Proof.
  apply (cmp_row_count_mismatch example_cell example_right true
           floatRelTolerance_default floatAbsTolerance_default
           (common_names_in_order example_cell example_right)).
  - apply common_names_in_order_spec.
  - vm_compute. discriminate.
Defined.

Section Comparison.
Variables (self : DataCategoryTyped) (dcObj : DataCategory).
Variables (ignoreOrder : bool) (relTol absTol : float).

Let loop := cmp_loop self dcObj ignoreOrder relTol absTol.
Let column := cmp_column self dcObj ignoreOrder relTol absTol.

Lemma same_after_snoc (rL : list (string * bool)) (atName : string) (b : bool) :
  same_after (rL ++ [(atName, b)]) = Some b.
Proof. unfold same_after. now rewrite last_snoc. Qed.

(** The loop over a concatenation is the loop over the first list followed,
    unless an exception stopped it, by the loop over the second. *)
Lemma cmp_loop_app (l1 l2 : list string) :
  forall rL,
    loop (l1 ++ l2) rL (same_after rL) =
    match loop l1 rL (same_after rL) with
    | (rL1, None) => loop l2 rL1 (same_after rL1)
    | (rL1, Some e) => (rL1, Some e)
    end.
Proof.
  induction l1 as [|atName l1 IH]; intros rL; [reflexivity|].
  unfold loop in *. cbn [app cmp_loop].
  destruct (bind _ _) as [b|e]; [|reflexivity].
  rewrite <- (same_after_snoc rL atName b). apply IH.
Qed.

(** The entries of a loop that ran to its end name the columns in order. *)
Lemma cmp_loop_names (l : list string) :
  forall rL same rL',
    loop l rL same = (rL', None) -> map fst rL' = (map fst rL ++ l)%list.
Proof.
  induction l as [|atName l IH]; intros rL same rL' Hrun;
    unfold loop in *; cbn [cmp_loop] in Hrun.
  - inversion Hrun; subst. now rewrite app_nil_r.
  - destruct (bind _ _) as [b|e]; [|discriminate].
    apply IH in Hrun. rewrite Hrun, map_app. cbn [map fst].
    now rewrite <- app_assoc.
Qed.

(** The loop stopped in a column: what [rL] holds then. *)
Lemma cmp_loop_stopped (pre post : list string) (atName : string)
    (rL : list (string * bool)) (e : exn) :
  loop pre [] None = (rL, None) ->
  (s <- column (same_after rL) atName ;; read_same s) = Raise e ->
  loop (pre ++ atName :: post) [] None = (rL, Some e).
Proof.
  intros Hpre Hcol.
  change (@None bool) with (same_after []) in Hpre |- *.
  rewrite cmp_loop_app, Hpre. unfold loop, column in *. cbn [cmp_loop].
  now rewrite Hcol.
Qed.

(** A float column whose two value lists are empty leaves [same] as the
    previous column left it: no assignment is executed. *)
Lemma cmp_column_float_empty (same : option bool) (atName : string)
    (isMandatory : bool) :
  __getAttributeInfo self atName = Ok ("float", isMandatory) ->
  getAttributeValueList self atName = Ok [] ->
  getAttributeValueList dcObj atName = Ok [] ->
  column same atName = Ok same.
Proof.
  intros Hinfo Ha Hb. unfold column, cmp_column.
  rewrite Hinfo, Ha, Hb. now destruct ignoreOrder.
Qed.
End Comparison.

(** C10: with [raiseExceptions] unset and equal row counts, when the
    columns [pre] were compared and gave the entries [rL], and the next
    column raises (in [__getAttributeInfo], in [sorted], in [__isClose] or
    at the read of an unbound [same]), [cmpAttributeValues] returns
    exactly [rL]: an entry for each column of [pre], in order, none for
    the failing column or those after it, and the exception nowhere. *)
Theorem cmp_exception_returns_partial (self : DataCategoryTyped)
    (dcObj : DataCategory) (ignoreOrder : bool)
    (floatRelTolerance floatAbsTolerance : float)
    (pre post : list string) (atName : string)
    (rL : list (string * bool)) (e : exn) :
  raiseExceptions self = false ->
  getRowCount self = getRowCount dcObj ->
  cmp_loop self dcObj ignoreOrder floatRelTolerance floatAbsTolerance
    pre [] None = (rL, None) ->
  (s <- cmp_column self dcObj ignoreOrder floatRelTolerance floatAbsTolerance
          (same_after rL) atName ;;
   read_same s) = Raise e ->
  cmpAttributeValues self dcObj ignoreOrder floatRelTolerance floatAbsTolerance
    (pre ++ atName :: post) = Ok rL /\
  map fst rL = pre.
Proof.
  intros Hraise Hlen Hpre Hcol. split.
  - unfold cmpAttributeValues.
    apply Nat.eqb_eq in Hlen. rewrite Hlen. cbn [negb].
    rewrite (cmp_loop_stopped _ _ _ _ _ pre post atName rL e Hpre Hcol).
    now rewrite Hraise.
  - now apply cmp_loop_names in Hpre.
Qed.

Lemma cmp_exception_returns_partial_witness :
  cmpAttributeValues example_left example_right true
    floatRelTolerance_default floatAbsTolerance_default
    (["details"] ++ "length" :: []) = Ok [("details", true)] /\
  map fst [("details", true)] = ["details"].
Proof.
  apply (cmp_exception_returns_partial example_left example_right true
           floatRelTolerance_default floatAbsTolerance_default
           ["details"] [] "length" [("details", true)] ValueError);
    reflexivity.
Defined.

(** With [raiseExceptions] set the same exception leaves the method. *)
Lemma cmp_exception_reraised (self : DataCategoryTyped)
    (dcObj : DataCategory) (ignoreOrder : bool)
    (floatRelTolerance floatAbsTolerance : float)
    (pre post : list string) (atName : string)
    (rL : list (string * bool)) (e : exn) :
  raiseExceptions self = true ->
  getRowCount self = getRowCount dcObj ->
  cmp_loop self dcObj ignoreOrder floatRelTolerance floatAbsTolerance
    pre [] None = (rL, None) ->
  (s <- cmp_column self dcObj ignoreOrder floatRelTolerance floatAbsTolerance
          (same_after rL) atName ;;
   read_same s) = Raise e ->
  cmpAttributeValues self dcObj ignoreOrder floatRelTolerance floatAbsTolerance
    (pre ++ atName :: post) = Raise e.
Proof.
  intros Hraise Hlen Hpre Hcol. unfold cmpAttributeValues.
  apply Nat.eqb_eq in Hlen. rewrite Hlen. cbn [negb].
  rewrite (cmp_loop_stopped _ _ _ _ _ pre post atName rL e Hpre Hcol).
  now rewrite Hraise.
Qed.

(** C5 fails on the code.  Two tables without rows share the float column
    "length": its two value lists are empty, no assignment to [same] is
    executed, and the [append] reads an unbound local.  The method raises
    [UnboundLocalError], or returns no entry at all when [raiseExceptions]
    is unset.  With the string column "details" as well, the entry of
    "length" is the flag left by "details" when "details" is iterated
    first, and the method fails as before when "length" comes first. *)
Theorem cmp_empty_float_column_unbound (ignoreOrder : bool)
    (floatRelTolerance floatAbsTolerance : float) :
  cmpAttributeValues (example_empty true ["length"]) (example_empty true ["length"])
    ignoreOrder floatRelTolerance floatAbsTolerance ["length"]
  = Raise UnboundLocalError /\
  cmpAttributeValues (example_empty false ["length"]) (example_empty false ["length"])
    ignoreOrder floatRelTolerance floatAbsTolerance ["length"]
  = Ok [] /\
  cmpAttributeValues (example_empty false ["details"; "length"])
    (example_empty false ["details"; "length"])
    ignoreOrder floatRelTolerance floatAbsTolerance ["details"; "length"]
  = Ok [("details", true); ("length", true)] /\
  cmpAttributeValues (example_empty false ["details"; "length"])
    (example_empty false ["details"; "length"])
    ignoreOrder floatRelTolerance floatAbsTolerance ["length"; "details"]
  = Ok [].
Proof. destruct ignoreOrder; repeat split; reflexivity. Qed.

(** ** The string pass *)

Lemma set_type_id (self : DataCategoryTyped) (atName dataType : string) :
  attributeTypeD self !! atName = Some dataType ->
  set_type self atName dataType = self.
Proof.
  destruct self as [d api r t]. unfold set_type. cbn. intros Ht.
  now rewrite (insert_id t atName dataType Ht).
Qed.

Lemma py_in_marker (isMandatory : bool) :
  py_in (marker isMandatory) [VStr "."; VStr "?"] = true.
Proof. now destruct isMandatory. Qed.

Lemma py_in_not_marker (s : string) :
  s <> "." -> s <> "?" -> py_in (VStr s) [VStr "."; VStr "?"] = false.
Proof.
  intros H1 H2. unfold py_in. cbn [existsb py_eq].
  apply String.eqb_neq in H1, H2. now rewrite H1, H2.
Qed.

Lemma py_in_markers_inv (v : pyval) :
  py_in v [VStr "."; VStr "?"] = false -> v <> VStr "." /\ v <> VStr "?".
Proof.
  intros Hin. split; intros ->; discriminate Hin.
Qed.

Section StringPass.
Context `{B : Builtins} (HB : str_faithful B).

(** A row the body accepts: the cell is stored in place and is a
    [string_cell]. *)
Lemma string_row_ok (isMandatory : bool) (ii : nat) (row row' : list pyval) :
  string_row isMandatory ii row = Ok row' ->
  exists c, row' = <[ii := c]> row /\ (ii < length row)%nat /\
            string_cell isMandatory c.
Proof.
  unfold string_row, getitem.
  destruct (row !! ii) as [v|] eqn:Hv; [|discriminate]. cbn [bind].
  pose proof (lookup_lt_Some _ _ _ Hv) as Hlt.
  destruct (is_None v || py_in v [VStr "."; VStr "?"]) eqn:Hmiss.
  - rewrite (setitem_some row ii v) by assumption. intros E. injection E as <-.
    exists (marker isMandatory). repeat split; [assumption | now left].
  - unfold castD. cbn [String.eqb Ascii.eqb Bool.eqb bind].
    destruct (py_str v) as [s|e] eqn:Hstr; cbn [bind]; [|discriminate].
    rewrite (setitem_some row ii v) by assumption. intros E. injection E as <-.
    exists (VStr s). repeat split; [assumption|]. right. exists s.
    apply orb_false_iff in Hmiss as [_ Hin].
    apply py_in_markers_inv in Hin as [Hdot Hq].
    repeat split; intros ->.
    + apply Hdot. apply (str_not_marker B HB v "." Hstr). now left.
    + apply Hq. apply (str_not_marker B HB v "?" Hstr). now right.
Qed.

(** A row whose cell is a [string_cell] is left as it is. *)
Lemma string_row_fix (isMandatory : bool) (ii : nat) (row : list pyval) (c : pyval) :
  row !! ii = Some c -> string_cell isMandatory c ->
  string_row isMandatory ii row = Ok row.
Proof.
  intros Hc Hcell. unfold string_row, getitem. rewrite Hc. cbn [bind].
  destruct Hcell as [-> | (s & -> & Hdot & Hq)].
  - rewrite py_in_marker, orb_true_r. unfold marker in *.
    rewrite (setitem_some row ii _ _ Hc). now rewrite (list_insert_id _ _ _ Hc).
  - rewrite (py_in_not_marker s Hdot Hq). cbn [is_None orb].
    unfold castD. cbn [String.eqb Ascii.eqb Bool.eqb bind].
    rewrite (str_of_str B HB s). cbn [bind].
    rewrite (setitem_some row ii _ _ Hc). now rewrite (list_insert_id _ _ _ Hc).
Qed.

Lemma string_row_idem (isMandatory : bool) (ii : nat) (row row' : list pyval) :
  string_row isMandatory ii row = Ok row' ->
  string_row isMandatory ii row' = Ok row'.
Proof.
  intros Hrow. apply string_row_ok in Hrow as (c & -> & Hlt & Hcell).
  apply (string_row_fix isMandatory ii _ c); [|assumption].
  now apply list_lookup_insert_eq.
Qed.

(** Running the body on a column already in string form changes nothing. *)
Lemma applyStringTypes_column_fix (n k : nat) (atName : string)
    (self : DataCategoryTyped) (ok : bool) :
  string_columns n self -> (k < n)%nat ->
  getAttributeList self !! k = Some atName ->
  applyStringTypes_column k atName (self, ok) = ((self, true), None).
Proof.
  intros Hcols Hk Hname.
  destruct (Hcols k atName Hk Hname) as (dataType & isMandatory & Hinfo & Htype & Hrows).
  unfold applyStringTypes_column. rewrite Hinfo.
  rewrite (for_rows_fix (string_row isMandatory k) (data self)).
  - now rewrite set_data_id, (set_type_id self atName "string" Htype).
  - intros row Hrow. destruct (Hrows row Hrow) as (c & Hc & Hcell).
    now apply (string_row_fix isMandatory k row c).
Qed.

(** A column the body completes joins the columns in string form. *)
Lemma applyStringTypes_column_done (k : nat) (atName : string)
    (self self' : DataCategoryTyped) (ok ok' : bool) :
  string_columns k self ->
  getAttributeList self !! k = Some atName ->
  applyStringTypes_column k atName (self, ok) = ((self', ok'), None) ->
  string_columns (S k) self' /\ ok' = true.
Proof.
  intros Hcols Hname. unfold applyStringTypes_column.
  destruct (__getAttributeInfo self atName) as [[dataType isMandatory]|e] eqn:Hinfo;
    [|discriminate].
  destruct (for_rows _ (data self)) as [rows [e|]] eqn:Hrows; [discriminate|].
  intros E. inversion E; subst. clear E. split; [|reflexivity].
  apply for_rows_ok in Hrows.
  intros j aj Hj Hnamej. cbn in Hnamej.
  destruct (decide (j = k)) as [->|Hne].
  - rewrite Hname in Hnamej. injection Hnamej as <-.
    exists dataType, isMandatory. split; [exact Hinfo|].
    split; [apply lookup_insert_eq|].
    intros row' Hrow'. cbn in Hrow'.
    apply list_elem_of_lookup_1 in Hrow' as [r Hr].
    destruct (Forall2_lookup_r _ _ _ _ _ Hrows Hr) as (row & _ & Hrow).
    apply string_row_ok in Hrow as (c & -> & Hlt & Hcell).
    exists c. split; [now apply list_lookup_insert_eq | assumption].
  - destruct (Hcols j aj) as (dt & m & Hi & Ht & Hcells); [lia|assumption|].
    exists dt, m. split; [exact Hi|]. split.
    + cbn. destruct (decide (atName = aj)) as [->|Hna].
      * apply lookup_insert_eq.
      * now rewrite lookup_insert_ne.
    + intros row' Hrow'. cbn in Hrow'.
      apply list_elem_of_lookup_1 in Hrow' as [r Hr].
      destruct (Forall2_lookup_r _ _ _ _ _ Hrows Hr) as (row & Hrow0 & Hrow).
      apply string_row_ok in Hrow as (c & -> & Hlt & Hcell).
      destruct (Hcells row) as (c' & Hc' & Hcell').
      { now apply list_elem_of_lookup_2 in Hrow0. }
      exists c'. split; [|assumption].
      now rewrite list_lookup_insert_ne by lia.
Qed.

(** A column in which the body stops: the columns before it stay in string
    form, [ok] is unchanged, and running the body again on the state it
    left stops at the same exception and changes nothing. *)
Lemma applyStringTypes_column_stopped (k : nat) (atName : string)
    (self self' : DataCategoryTyped) (ok ok' : bool) (e : exn) :
  string_columns k self ->
  applyStringTypes_column k atName (self, ok) = ((self', ok'), Some e) ->
  string_columns k self' /\ ok' = ok /\
  applyStringTypes_column k atName (self', ok') = ((self', ok'), Some e).
Proof.
  intros Hcols. unfold applyStringTypes_column.
  destruct (__getAttributeInfo self atName) as [[dataType isMandatory]|e1] eqn:Hinfo.
  - destruct (for_rows _ (data self)) as [rows [e2|]] eqn:Hrows; [|discriminate].
    intros E. inversion E; subst. clear E.
    split; [|split; [reflexivity|]].
    + intros j aj Hj Hnamej. cbn in Hnamej.
      destruct (Hcols j aj Hj Hnamej) as (dt & m & Hi & Ht & Hcells).
      exists dt, m. split; [exact Hi|]. split; [exact Ht|].
      intros row' Hrow'. cbn in Hrow'.
      destruct (for_rows_elem _ _ _ _ Hrows row' Hrow') as [Hin | (row & Hin & Hrow)].
      * now apply Hcells.
      * apply string_row_ok in Hrow as (c & -> & Hlt & Hcell).
        destruct (Hcells row Hin) as (c' & Hc' & Hcell').
        exists c'. split; [|assumption].
        now rewrite list_lookup_insert_ne by lia.
    + change (__getAttributeInfo (set_data self rows) atName)
        with (__getAttributeInfo self atName).
      rewrite Hinfo. cbn [data dc set_data].
      rewrite (for_rows_rerun _ _ _ _ (string_row_idem isMandatory k) Hrows).
      reflexivity.
  - intros E. inversion E; subst. clear E.
    split; [assumption|]. split; [reflexivity|]. now rewrite Hinfo.
Qed.

(** The first pass: it completes the columns [done], leaves them in string
    form, and a run over the remaining columns [rest] from the state it
    left changes nothing and ends the same way. *)
Lemma string_pass_first (atNames : list string) :
  forall (pre : list string) (k : nat) (self : DataCategoryTyped) (ok : bool)
         (self1 : DataCategoryTyped) (ok1 : bool) (err : option exn),
    getAttributeList self = (pre ++ atNames)%list -> length pre = k ->
    string_columns k self ->
    for_columns applyStringTypes_column k atNames (self, ok) = ((self1, ok1), err) ->
    exists done rest,
      atNames = (done ++ rest)%list /\
      string_columns (k + length done) self1 /\
      same_env self self1 /\
      ok1 = match done with [] => ok | _ => true end /\
      for_columns applyStringTypes_column (k + length done) rest (self1, ok1)
        = ((self1, ok1), err).
Proof.
  induction atNames as [|atName atNames IH];
    intros pre k self ok self1 ok1 err Hattrs Hlen Hcols Hrun.
  - cbn in Hrun. inversion Hrun; subst. clear Hrun.
    exists [], []. cbn [length app]. rewrite Nat.add_0_r.
    repeat split; try assumption; reflexivity.
  - subst k. cbn [for_columns] in Hrun.
    pose proof (applyStringTypes_column_env (length pre) atName (self, ok)) as Henv.
    destruct (applyStringTypes_column (length pre) atName (self, ok))
      as [[self' ok'] [e|]] eqn:Ecol; cbn [fst] in Henv.
    + inversion Hrun; subst. clear Hrun.
      apply (applyStringTypes_column_stopped _ _ _ _ _ _ _ Hcols) in Ecol
        as (Hcols' & -> & Hrerun).
      exists [], (atName :: atNames). cbn [length app]. rewrite Nat.add_0_r.
      repeat split; try assumption; try apply Henv.
      cbn [for_columns]. now rewrite Hrerun.
    + assert (Hname : getAttributeList self !! length pre = Some atName).
      { rewrite Hattrs. now apply list_lookup_middle. }
      apply (applyStringTypes_column_done _ _ _ _ _ _ Hcols Hname) in Ecol
        as (Hcols' & ->).
      destruct (IH (pre ++ [atName])%list (S (length pre)) self' true self1 ok1 err)
        as (done & rest & -> & Hdone & Henv' & Hok & Hrest).
      { destruct Henv as (_ & _ & -> & _). rewrite Hattrs.
        now rewrite <- app_assoc. }
      { rewrite length_app. cbn. lia. }
      { exact Hcols'. }
      { exact Hrun. }
      exists (atName :: done), rest. cbn [length app].
      replace (length pre + S (length done))%nat
        with (S (length pre) + length done)%nat by lia.
      split; [reflexivity|]. split; [assumption|].
      split; [now apply (same_env_trans _ _ _ Henv)|].
      split; [now destruct done | assumption].
Qed.

(** The second pass over columns in string form changes nothing. *)
Lemma string_pass_second (todo : list string) :
  forall (done rest : list string) (n : nat) (self : DataCategoryTyped) (ok : bool),
    getAttributeList self = (done ++ todo ++ rest)%list ->
    (length done + length todo = n)%nat ->
    string_columns n self ->
    for_columns applyStringTypes_column (length done) (todo ++ rest) (self, ok)
    = for_columns applyStringTypes_column n rest
        (self, match todo with [] => ok | _ => true end).
Proof.
  induction todo as [|atName todo IH]; intros done rest n self ok Hattrs Hlen Hcols.
  - cbn in Hlen. rewrite Nat.add_0_r in Hlen. now subst.
  - cbn [app for_columns].
    rewrite (applyStringTypes_column_fix n (length done) atName self ok Hcols).
    + specialize (IH (done ++ [atName])%list rest n self true).
      rewrite length_app in IH. cbn [length] in IH.
      replace (length done + 1)%nat with (S (length done)) in IH by lia.
      rewrite IH.
      * now destruct todo.
      * now rewrite <- app_assoc.
      * cbn [length] in Hlen. lia.
      * exact Hcols.
    + cbn [length] in Hlen. lia.
    + rewrite Hattrs. now apply list_lookup_middle.
Qed.
End StringPass.

Lemma finish_pass_fst (r : pass_state * option exn) :
  fst (finish_pass r) = fst (fst r).
Proof. now destruct r as [[self ok] [e|]]. Qed.

(** C8: when [str] is the identity on strings and renders no other value
    as "." or "?", applying [applyStringTypes] to the object the first
    call left gives the same object (cells and recorded types) and the
    same result: the same flag, or the same exception. *)
Theorem applyStringTypes_idempotent `{B : Builtins} (self : DataCategoryTyped) :
  str_faithful B ->
  applyStringTypes (fst (applyStringTypes self)) = applyStringTypes self.
Proof.
  intros HB. unfold applyStringTypes.
  destruct (for_columns applyStringTypes_column 0 (getAttributeList self) (self, false))
    as [[self1 ok1] err] eqn:Hfirst.
  destruct (string_pass_first HB (getAttributeList self) [] 0%nat self false
              self1 ok1 err)
    as (done & rest & Hsplit & Hcols & Henv & Hok & Hrest);
    [reflexivity | reflexivity | intros j a Hj; lia | exact Hfirst |].
  rewrite finish_pass_fst. cbn [fst].
  destruct Henv as (_ & _ & Hattrs & _). rewrite Hattrs, Hsplit.
  pose proof (string_pass_second HB done [] rest (length done) self1 false)
    as Hsecond.
  cbn [length app Nat.add] in Hsecond, Hcols, Hrest.
  rewrite Hsecond.
  - rewrite <- Hok. now rewrite Hrest.
  - now rewrite Hattrs, Hsplit.
  - reflexivity.
  - exact Hcols.
Qed.

(** ** The example conversions *)

Lemma digit_not_marker (n : nat) :
  (n < 10)%nat ->
  ascii_of_nat (48 + n) <> "."%char /\ ascii_of_nat (48 + n) <> "?"%char.
Proof.
  intros Hn.
  do 10 (destruct n as [|n]; [split; discriminate|]). lia.
Qed.

Lemma digits_of_pos_head (fuel : nat) :
  forall z acc,
    fuel <> 0%nat \/ head_not_marker acc ->
    head_not_marker (digits_of_pos fuel z acc).
Proof.
  induction fuel as [|fuel IH]; intros z acc Hstart; cbn [digits_of_pos].
  - destruct Hstart as [H|H]; [contradiction | exact H].
  - assert (Hhead : head_not_marker
                      (String (ascii_of_nat (48 + Z.to_nat (z mod 10))) acc)).
    { eexists _, _. split; [reflexivity|]. apply digit_not_marker.
      pose proof (Z.mod_pos_bound z 10 eq_refl). lia. }
    destruct (z <? 10); [exact Hhead|]. apply IH. now right.
Qed.

Lemma decimal_head (z : Z) : head_not_marker (decimal z).
Proof.
  unfold decimal.
  pose proof (digits_of_pos_head (S (Z.to_nat (Z.log2 (Z.abs z)))) (Z.abs z) ""
                (or_introl (Nat.neq_succ_0 _))) as Hds.
  destruct (z <? 0); [|exact Hds].
  eexists _, _. split; [reflexivity|]. split; discriminate.
Qed.

Lemma head_not_marker_neq (s : string) :
  head_not_marker s -> s <> "." /\ s <> "?".
Proof.
  intros (c & rest & -> & Hdot & Hq). split; intros E; injection E; congruence.
Qed.

Lemma head_not_marker_append (s t : string) :
  head_not_marker s -> head_not_marker (String.append s t).
Proof.
  intros (c & rest & -> & Hdot & Hq). now exists c, (String.append rest t).
Qed.

(** The example conversions meet what [applyStringTypes] relies on. *)
Lemma example_str_faithful : str_faithful example_builtins.
Proof.
  split; [reflexivity|].
  intros v s Hstr Hmarker.
  assert (Hno : head_not_marker s -> v = VStr s).
  { intros Hhead. apply head_not_marker_neq in Hhead. tauto. }
  destruct v as [|s0|z|f]; cbn [py_str example_builtins example_str] in Hstr.
  - injection Hstr as <-. destruct Hmarker; discriminate.
  - now injection Hstr as <-.
  - destruct (Z.abs z <? 10 ^ 4300); [|discriminate].
    injection Hstr as <-. apply Hno, decimal_head.
  - destruct (Prim2SF f) as [sg|sg| |sg m e].
    + injection Hstr as <-. destruct sg, Hmarker; discriminate.
    + injection Hstr as <-. destruct sg, Hmarker; discriminate.
    + injection Hstr as <-. destruct Hmarker; discriminate.
    + destruct (integral_value m e) as [i|]; [|discriminate].
      destruct (i <? 10 ^ 16); [|discriminate].
      injection Hstr as <-. apply Hno, head_not_marker_append, decimal_head.
Qed.

Lemma applyStringTypes_idempotent_witness :
  applyStringTypes (H := example_builtins)
    (fst (applyStringTypes (H := example_builtins) example_cell))
  = applyStringTypes (H := example_builtins) example_cell.
Proof.
  apply (applyStringTypes_idempotent (B := example_builtins) example_cell).
  exact example_str_faithful.
Defined.

(** The string pass on the example, and on its own result. *)
Example applyStringTypes_example :
  data (fst (applyStringTypes (H := example_builtins) example_cell))
  = [ [VStr "3"; VStr "1.5"; VStr "x"]; [VStr "."; VStr "1.2.3"; VStr "?"] ].
Proof. vm_compute. reflexivity. Qed.

(** Both orders used for the two empty tables are iteration orders of the
    set of their common names. *)
Lemma example_empty_orders :
  common_names (example_empty false ["details"; "length"])
    (example_empty false ["details"; "length"]) ["details"; "length"] /\
  common_names (example_empty false ["details"; "length"])
    (example_empty false ["details"; "length"]) ["length"; "details"].
Proof.
  split; (split; [now apply (bool_decide_unpack _) |]);
    intros atName; cbn [getAttributeList dc example_empty example_typed];
    rewrite !elem_of_cons, elem_of_nil; tauto.
Qed.

(** * Further properties of the passes *)

Lemma for_rows_ext (body1 body2 : list pyval -> res (list pyval))
    (rows : list (list pyval)) :
  (forall row, body1 row = body2 row) ->
  for_rows body1 rows = for_rows body2 rows.
Proof.
  intros Hext. induction rows as [|row rows IH]; [reflexivity|].
  cbn [for_rows]. now rewrite Hext, IH.
Qed.

Lemma for_columns_ext
    (body1 body2 : nat -> string -> pass_state -> pass_state * option exn)
    (atNames : list string) :
  (forall ii atName st, body1 ii atName st = body2 ii atName st) ->
  forall k st, for_columns body1 k atNames st = for_columns body2 k atNames st.
Proof.
  intros Hext. induction atNames as [|atName atNames IH]; intros k st;
    [reflexivity|].
  cbn [for_columns]. rewrite Hext.
  destruct (body2 k atName st) as [st' [e|]]; [reflexivity | apply IH].
Qed.

Lemma cast_row_any_flag `{B : Builtins} (flag1 flag2 : bool) (dataType : string)
    (missingValue : pyval) (ii : nat) (row : list pyval) :
  cast_row flag1 dataType missingValue ii row
  = cast_row flag2 dataType missingValue ii row.
Proof.
  destruct (row !! ii) as [v|] eqn:Hv.
  - now rewrite !(cast_row_some _ true VNone VNone VNone _ _ _ _ v Hv).
  - now rewrite !(cast_row_none _ true VNone VNone VNone _ _ _ _ Hv).
Qed.

(** X1: [ignoreCastErrors] only silences the log record: the object
    [applyTypes] leaves and what it returns or raises are the same for
    both values of the flag, on every input. *)
Theorem applyTypes_ignoreCastErrors_irrelevant `{B : Builtins}
    (self : DataCategoryTyped) (flag1 flag2 useCifUnknowns : bool)
    (missingValueString missingValueInteger missingValueFloat : pyval) :
  applyTypes self flag1 useCifUnknowns
    missingValueString missingValueInteger missingValueFloat
  = applyTypes self flag2 useCifUnknowns
      missingValueString missingValueInteger missingValueFloat.
Proof.
  unfold applyTypes, applyTypes_loop. f_equal.
  apply for_columns_ext. intros ii atName [self0 ok].
  unfold applyTypes_column.
  destruct (__getAttributeInfo self0 atName) as [[dataType isMandatory]|e];
    [|reflexivity].
  now rewrite (for_rows_ext _ _ (data self0)
                 (cast_row_any_flag flag1 flag2 dataType _ ii)).
Qed.

Lemma same_shape_refl (rows : list (list pyval)) : same_shape rows rows.
Proof. apply Forall2_refl_on. reflexivity. Qed.

Lemma same_shape_trans (r1 r2 r3 : list (list pyval)) :
  same_shape r1 r2 -> same_shape r2 r3 -> same_shape r1 r3.
Proof.
  unfold same_shape. apply Forall2_compose. intros a b c H1 H2. congruence.
Qed.

Lemma setitem_length (row row' : list pyval) (ii : nat) (v : pyval) :
  setitem row ii v = Ok row' -> length row' = length row.
Proof.
  unfold setitem. case_bool_decide; [|discriminate].
  intros E. injection E as <-. apply length_insert.
Qed.

Lemma for_rows_shape (body : list pyval -> res (list pyval))
    (rows rows' : list (list pyval)) (err : option exn) :
  (forall row row', body row = Ok row' -> length row' = length row) ->
  for_rows body rows = (rows', err) -> same_shape rows rows'.
Proof.
  intros Hbody. revert rows' err.
  induction rows as [|row rows IH]; intros rows' err Hrun; cbn [for_rows] in Hrun.
  - inversion Hrun; subst. constructor.
  - destruct (body row) as [row1|e] eqn:Erow.
    + destruct (for_rows body rows) as [done err'] eqn:Erest.
      specialize (IH _ _ eq_refl).
      inversion Hrun; subst. constructor; [now apply Hbody | exact IH].
    + inversion Hrun; subst. apply same_shape_refl.
Qed.

Lemma for_columns_shape
    (body : nat -> string -> pass_state -> pass_state * option exn) :
  (forall ii atName (st : pass_state),
     same_shape (data (fst st)) (data (fst (fst (body ii atName st))))) ->
  forall atNames k (st : pass_state),
    same_shape (data (fst st)) (data (fst (fst (for_columns body k atNames st)))).
Proof.
  intros Hbody. induction atNames as [|atName atNames IH]; intros k st.
  - apply same_shape_refl.
  - cbn [for_columns]. specialize (Hbody k atName st).
    destruct (body k atName st) as [st' [e|]]; [exact Hbody|].
    eapply same_shape_trans; [exact Hbody | apply IH].
Qed.

Lemma cast_row_length `{B : Builtins} (flag : bool) (dataType : string)
    (missingValue : pyval) (ii : nat) (row row' : list pyval) :
  cast_row flag dataType missingValue ii row = Ok row' ->
  length row' = length row.
Proof.
  intros Hrow.
  apply (cast_row_ok flag true VNone VNone VNone) in Hrow as (v & _ & ->).
  apply length_insert.
Qed.

Lemma string_row_length `{B : Builtins} (isMandatory : bool) (ii : nat)
    (row row' : list pyval) :
  string_row isMandatory ii row = Ok row' -> length row' = length row.
Proof.
  unfold string_row. destruct (getitem row ii) as [v|e]; [|discriminate].
  cbn [bind]. destruct (is_None v || py_in v [VStr "."; VStr "?"]).
  - apply setitem_length.
  - destruct (castD "string") as [cast|e]; [|discriminate]. cbn [bind].
    destruct (cast v) as [v'|e]; [|discriminate]. apply setitem_length.
Qed.

Lemma applyTypes_column_shape `{B : Builtins} (flag useCifUnknowns : bool)
    (missingValueString missingValueInteger missingValueFloat : pyval)
    (ii : nat) (atName : string) (st : pass_state) :
  same_shape (data (fst st))
    (data (fst (fst (applyTypes_column flag useCifUnknowns missingValueString
                       missingValueInteger missingValueFloat ii atName st)))).
Proof.
  destruct st as [self ok]. unfold applyTypes_column.
  destruct (__getAttributeInfo self atName) as [[dataType isMandatory]|e];
    [|apply same_shape_refl].
  destruct (for_rows _ (data self)) as [rows err] eqn:Erows.
  apply for_rows_shape in Erows; [|intros row row'; apply cast_row_length].
  now destruct err.
Qed.

Lemma applyStringTypes_column_shape `{B : Builtins} (ii : nat) (atName : string)
    (st : pass_state) :
  same_shape (data (fst st))
    (data (fst (fst (applyStringTypes_column ii atName st)))).
Proof.
  destruct st as [self ok]. unfold applyStringTypes_column.
  destruct (__getAttributeInfo self atName) as [[dataType isMandatory]|e];
    [|apply same_shape_refl].
  destruct (for_rows _ (data self)) as [rows err] eqn:Erows.
  apply for_rows_shape in Erows; [|intros row row'; apply string_row_length].
  now destruct err.
Qed.

(** X2: whatever happens in it (a completed pass, an abort, an exception
    that is re-raised), neither pass changes the name, the attribute list,
    the dictionary or the [raiseExceptions] flag of the object, the number
    of its rows or the length of any row. *)
Theorem passes_keep_shape `{B : Builtins} (self : DataCategoryTyped)
    (ignoreCastErrors useCifUnknowns : bool)
    (missingValueString missingValueInteger missingValueFloat : pyval) :
  (same_env self
     (fst (applyTypes self ignoreCastErrors useCifUnknowns
             missingValueString missingValueInteger missingValueFloat)) /\
   same_shape (data self)
     (data (fst (applyTypes self ignoreCastErrors useCifUnknowns
                   missingValueString missingValueInteger missingValueFloat)))) /\
  (same_env self (fst (applyStringTypes self)) /\
   same_shape (data self) (data (fst (applyStringTypes self)))).
Proof.
  unfold applyTypes, applyStringTypes, applyTypes_loop.
  rewrite !finish_pass_fst. repeat split.
  - apply (for_columns_env _ (applyTypes_column_env _ _ _ _ _) _ _ (self, false)).
  - apply (for_columns_env _ (applyTypes_column_env _ _ _ _ _) _ _ (self, false)).
  - apply (for_columns_env _ (applyTypes_column_env _ _ _ _ _) _ _ (self, false)).
  - apply (for_columns_env _ (applyTypes_column_env _ _ _ _ _) _ _ (self, false)).
  - apply (for_columns_shape _ (applyTypes_column_shape _ _ _ _ _) _ _ (self, false)).
  - apply (for_columns_env _ applyStringTypes_column_env _ _ (self, false)).
  - apply (for_columns_env _ applyStringTypes_column_env _ _ (self, false)).
  - apply (for_columns_env _ applyStringTypes_column_env _ _ (self, false)).
  - apply (for_columns_env _ applyStringTypes_column_env _ _ (self, false)).
  - apply (for_columns_shape _ applyStringTypes_column_shape _ _ (self, false)).
Qed.

(** The type record and the flag after a run of the column loop of
    [applyTypes] that no exception stops. *)
Lemma applyTypes_columns_types `{B : Builtins} (ignoreCastErrors useCifUnknowns : bool)
    (missingValueString missingValueInteger missingValueFloat : pyval)
    (atNames : list string) :
  forall (k : nat) (self self' : DataCategoryTyped) (ok ok' : bool),
    for_columns
      (applyTypes_column ignoreCastErrors useCifUnknowns missingValueString
         missingValueInteger missingValueFloat)
      k atNames (self, ok) = ((self', ok'), None) ->
    (forall atName dataType isMandatory,
       atName ∈ atNames ->
       __getAttributeInfo self atName = Ok (dataType, isMandatory) ->
       attributeTypeD self' !! atName = Some dataType) /\
    (forall atName, atName ∉ atNames ->
       attributeTypeD self' !! atName = attributeTypeD self !! atName) /\
    ok' = match atNames with [] => ok | _ => true end.
Proof.
  induction atNames as [|a atNames IH]; intros k self self' ok ok' Hrun.
  - cbn in Hrun. inversion Hrun; subst.
    split; [|split; reflexivity].
    intros atName dt m Hin. now apply elem_of_nil in Hin.
  - cbn [for_columns] in Hrun.
    destruct (applyTypes_column _ _ _ _ _ k a (self, ok))
      as [[self1 ok1] [e|]] eqn:Ecol; [discriminate|].
    apply applyTypes_column_ok in Ecol
      as (dataType & isMandatory & rows & Hinfo & _ & -> & ->).
    apply IH in Hrun as (Hin & Hout & Hok).
    assert (Ha : a ∉ atNames -> attributeTypeD self' !! a = Some dataType).
    { intros Hna. rewrite (Hout a Hna). cbn. apply lookup_insert_eq. }
    split; [|split].
    + intros x dt m Hx Hix.
      destruct (decide (x ∈ atNames)) as [Hxin|Hxout].
      * now apply (Hin x dt m Hxin).
      * apply elem_of_cons in Hx as [->|Hx]; [|contradiction].
        rewrite Hinfo in Hix. injection Hix as <- <-. now apply Ha.
    + intros x Hx. apply not_elem_of_cons in Hx as [Hne Hx].
      rewrite (Hout x Hx). cbn. now rewrite lookup_insert_ne.
    + now destruct atNames.
Qed.

(** X3: a casting pass that runs to its end records for every attribute
    the type [getAttributeInfo] reports for it and leaves the other
    entries of the type record as they were; it returns [True] unless the
    attribute list is empty, in which case it returns [False]. *)
Theorem applyTypes_records_types `{B : Builtins} (self : DataCategoryTyped)
    (ignoreCastErrors useCifUnknowns : bool)
    (missingValueString missingValueInteger missingValueFloat : pyval)
    (self' : DataCategoryTyped) (ok : bool) :
  applyTypes_loop self ignoreCastErrors useCifUnknowns
    missingValueString missingValueInteger missingValueFloat = ((self', ok), None) ->
  (forall atName, atName ∈ getAttributeList self ->
     exists dataType isMandatory,
       getAttributeInfo self' atName = Ok (Some dataType, Some isMandatory) /\
       attributeTypeD self' !! atName = Some dataType) /\
  (forall atName, atName ∉ getAttributeList self ->
     attributeTypeD self' !! atName = attributeTypeD self !! atName) /\
  (ok = true <-> getAttributeList self <> []).
Proof.
  intros Hrun. unfold applyTypes_loop in Hrun.
  pose proof (applyTypes_columns_cells _ _ _ _ _ _ _ _ _ _ _ Hrun)
    as (Henv & Hinfos & _).
  apply applyTypes_columns_types in Hrun as (Hin & Hout & Hok).
  split; [|split].
  - intros atName Hname. rewrite Forall_forall in Hinfos.
    destruct (Hinfos atName Hname) as [[dataType isMandatory] Hinfo].
    exists dataType, isMandatory. split; [|now apply (Hin atName dataType isMandatory)].
    unfold getAttributeInfo.
    now rewrite (getAttributeInfo_env self self' atName Henv), Hinfo.
  - exact Hout.
  - rewrite Hok. destruct (getAttributeList self); split; congruence.
Qed.

Lemma applyTypes_records_types_witness :
  (forall atName, atName ∈ getAttributeList example_cell ->
     exists dataType isMandatory,
       getAttributeInfo
         (fst (fst (applyTypes_loop (H := example_builtins) example_cell
                      false true VNone VNone VNone))) atName
       = Ok (Some dataType, Some isMandatory) /\
       attributeTypeD
         (fst (fst (applyTypes_loop (H := example_builtins) example_cell
                      false true VNone VNone VNone))) !! atName
       = Some dataType) /\
  (forall atName, atName ∉ getAttributeList example_cell ->
     attributeTypeD
       (fst (fst (applyTypes_loop (H := example_builtins) example_cell
                    false true VNone VNone VNone))) !! atName
     = attributeTypeD example_cell !! atName) /\
  (true = true <-> getAttributeList example_cell <> []).
Proof.
  apply (applyTypes_records_types (B := example_builtins) example_cell
           false true VNone VNone VNone _ true).
  vm_compute. reflexivity.
Defined.

(** * Further properties of the type query and of the closeness predicate *)

(** X4: when the dictionary answers the type-code query with anything but
    a string ([None] for an item it does not know), [__getAttributeInfo]
    raises [TypeError], also for a name of [difficult_attributes]: the test
    for "int" comes before the exception list.  [getAttributeInfo] then
    returns [(None, None)]. *)
Theorem getAttributeInfo_unknown_item (self : DataCategoryTyped)
    (api : DictionaryApi) (atName : string)
    (cifDataType cifPrimitiveType mandatoryCode : pyval) :
  dApi self = Some api ->
  getTypeCode api (getName self) atName = Ok cifDataType ->
  (forall s, cifDataType <> VStr s) ->
  getTypePrimitive api (getName self) atName = Ok cifPrimitiveType ->
  getMandatoryCode api (getName self) atName = Ok mandatoryCode ->
  __getAttributeInfo self atName = Raise TypeError /\
  getAttributeInfo self atName = Ok (None, None).
Proof.
  intros Hapi Hcode Hnostr Hprim Hmand.
  assert (Hraise : __getAttributeInfo self atName = Raise TypeError).
  { unfold __getAttributeInfo. rewrite Hapi, Hcode, Hprim, Hmand. cbn [bind].
    destruct cifDataType as [|s|z|f]; try reflexivity.
    now destruct (Hnostr s). }
  split; [exact Hraise|]. unfold getAttributeInfo. now rewrite Hraise.
Qed.

Lemma getAttributeInfo_unknown_item_witness :
  __getAttributeInfo (example_typed true ["temperature"] []) "temperature"
    = Raise TypeError /\
  getAttributeInfo (example_typed true ["temperature"] []) "temperature"
    = Ok (None, None).
Proof.
  apply (getAttributeInfo_unknown_item (example_typed true ["temperature"] [])
           example_api "temperature" VNone VNone VNone);
    try reflexivity.
  intros s. discriminate.
Defined.

(** X5: whatever [__getAttributeInfo] returns is one of the three keys of
    [self.__castD], so the subscript [self.__castD[dataType]] of the two
    passes never raises [KeyError]. *)
Theorem getAttributeInfo_type_is_cast_key `{B : Builtins} (self : DataCategoryTyped)
    (atName dataType : string) (isMandatory : bool) :
  __getAttributeInfo self atName = Ok (dataType, isMandatory) ->
  In dataType ["integer"; "float"; "string"] /\
  exists cast, castD dataType = Ok cast.
Proof.
  unfold __getAttributeInfo. destruct (dApi self) as [api|]; [|discriminate].
  destruct (getTypeCode api _ _) as [tc|e]; [|discriminate].
  destruct (getTypePrimitive api _ _) as [tp|e]; [|discriminate].
  destruct (getMandatoryCode api _ _) as [mc|e]; [|discriminate].
  cbn [bind]. destruct (py_contains_str "int" tc) as [isInt|e]; [|discriminate].
  cbn [bind].
  destruct (str_in atName difficult_attributes), isInt,
    (py_eq tp (VStr "numb"));
    intros E; injection E as <- _;
    (split; [cbn [In]; auto 6 | eexists; reflexivity]).
Qed.

Lemma getAttributeInfo_type_is_cast_key_witness :
  In "float" ["integer"; "float"; "string"] /\
  exists cast, castD (H := example_builtins) "float" = Ok cast.
Proof.
  apply (getAttributeInfo_type_is_cast_key (B := example_builtins)
           example_cell "length" "float" false).
  reflexivity.
Defined.

(** X6: the mandatory flag of [__getAttributeInfo] is [True] exactly when
    the dictionary's mandatory code is one of the strings "yes",
    "implicit" and "implicit-ordinal"; it does not depend on the type
    codes or on [difficult_attributes]. *)
Theorem getAttributeInfo_mandatory (self : DataCategoryTyped)
    (api : DictionaryApi) (atName dataType : string) (isMandatory : bool)
    (mandatoryCode : pyval) :
  dApi self = Some api ->
  getMandatoryCode api (getName self) atName = Ok mandatoryCode ->
  __getAttributeInfo self atName = Ok (dataType, isMandatory) ->
  (isMandatory = true <->
   In mandatoryCode [VStr "yes"; VStr "implicit"; VStr "implicit-ordinal"]).
Proof.
  intros Hapi Hmand. unfold __getAttributeInfo. rewrite Hapi, Hmand.
  destruct (getTypeCode api _ _) as [tc|e]; [|discriminate].
  destruct (getTypePrimitive api _ _) as [tp|e]; [|discriminate].
  cbn [bind]. destruct (py_contains_str "int" tc) as [isInt|e]; [|discriminate].
  cbn [bind]. intros E. injection E as _ <-.
  rewrite orb_false_r, !orb_true_iff, !py_eq_str. cbn [In].
  intuition congruence.
Qed.

Lemma getAttributeInfo_mandatory_witness :
  true = true <->
  In (VStr "yes") [VStr "yes"; VStr "implicit"; VStr "implicit-ordinal"].
Proof.
  apply (getAttributeInfo_mandatory example_cell example_api "ordinal"
           "integer" true (VStr "yes")); reflexivity.
Defined.

(** X7: [__isClose] raises nothing but [ValueError], and only for a pair
    that is not both [None], not two present values that compare equal
    and not two floats; on two floats it always returns a flag. *)
Theorem isClose_raises_only_incomparable (aV bV : pyval) (relTol absTol : float)
    (e : exn) :
  __isClose aV bV relTol absTol = Raise e ->
  e = ValueError /\
  ~ (aV = VNone /\ bV = VNone) /\
  ~ (aV <> VNone /\ bV <> VNone /\ py_eq aV bV = true) /\
  ~ (is_float aV = true /\ is_float bV = true).
Proof.
  unfold __isClose.
  destruct (is_None aV && is_None bV) eqn:E1; [discriminate|].
  destruct (negb (is_None aV) && negb (is_None bV) && py_eq aV bV) eqn:E2;
    [discriminate|].
  intros Hraise.
  assert (He : e = ValueError /\ ~ (is_float aV = true /\ is_float bV = true)).
  { destruct aV, bV; try discriminate; injection Hraise as <-;
      (split; [reflexivity | intros [Ha Hb]; discriminate]). }
  destruct He as [He Hfloat]. split; [exact He|]. split; [|split; [|exact Hfloat]].
  - intros [-> ->]. discriminate E1.
  - intros (Ha & Hb & Heq). rewrite Heq in E2.
    destruct aV, bV; try discriminate; contradiction.
Qed.

Lemma isClose_raises_only_incomparable_witness :
  ValueError = ValueError /\
  ~ (VInt 1 = VNone /\ VFloat 0x1p+1 = VNone) /\
  ~ (VInt 1 <> VNone /\ VFloat 0x1p+1 <> VNone /\
     py_eq (VInt 1) (VFloat 0x1p+1) = true) /\
  ~ (is_float (VInt 1) = true /\ is_float (VFloat 0x1p+1) = true).
Proof.
  apply (isClose_raises_only_incomparable (VInt 1) (VFloat 0x1p+1)
           floatRelTolerance_default floatAbsTolerance_default ValueError).
  reflexivity.
Defined.

(** * Further properties of the comparison *)

(** Pairs that are all close leave the flag [True], if there is a pair. *)
Lemma close_loop_all_close (relTol absTol : float) (pairs : list (pyval * pyval))
    (same : option bool) :
  Forall (fun p => __isClose (fst p) (snd p) relTol absTol = Ok true) pairs ->
  close_loop relTol absTol pairs same
  = Ok (match pairs with [] => same | _ => Some true end).
Proof.
  intros Hall. revert same.
  induction Hall as [|[aV bV] pairs Hp _ IH]; intros same; [reflexivity|].
  cbn [close_loop]. cbn [fst snd] in Hp. rewrite Hp. cbn [bind negb].
  rewrite IH. now destruct pairs.
Qed.

Lemma close_loop_app_close (relTol absTol : float) (pre rest : list (pyval * pyval))
    (same : option bool) :
  Forall (fun p => __isClose (fst p) (snd p) relTol absTol = Ok true) pre ->
  close_loop relTol absTol (pre ++ rest) same
  = close_loop relTol absTol rest (match pre with [] => same | _ => Some true end).
Proof.
  intros Hall. revert same.
  induction Hall as [|[aV bV] pre Hp _ IH]; intros same; [reflexivity|].
  cbn [app close_loop]. cbn [fst snd] in Hp. rewrite Hp. cbn [bind negb].
  rewrite IH. now destruct pre.
Qed.

(** X8: the loop over the pairs of a float column stops at the first pair
    that is not close: the flag is [False] whatever comes after that pair,
    and the later pairs are not examined, not even a pair on which
    [__isClose] would raise. *)
Theorem close_loop_stops_at_first_unequal (relTol absTol : float)
    (pre post : list (pyval * pyval)) (aV bV : pyval) (same : option bool) :
  Forall (fun p => __isClose (fst p) (snd p) relTol absTol = Ok true) pre ->
  __isClose aV bV relTol absTol = Ok false ->
  close_loop relTol absTol (pre ++ (aV, bV) :: post) same = Ok (Some false).
Proof.
  intros Hpre Hab. rewrite (close_loop_app_close _ _ _ _ _ Hpre).
  cbn [close_loop]. now rewrite Hab.
Qed.

Lemma close_loop_stops_at_first_unequal_witness :
  close_loop floatRelTolerance_default floatAbsTolerance_default
    ([(VFloat 0x1p+0, VFloat 0x1p+0)]
       ++ (VFloat 0x1p+0, VFloat 0x1p+1) :: [(VInt 1, VStr "x")]) None
  = Ok (Some false).
Proof.
  apply (close_loop_stops_at_first_unequal
           floatRelTolerance_default floatAbsTolerance_default
           [(VFloat 0x1p+0, VFloat 0x1p+0)] [(VInt 1, VStr "x")]
           (VFloat 0x1p+0) (VFloat 0x1p+1) None).
  - repeat constructor.
  - reflexivity.
Defined.

(** The entries of the loop name, in order, the columns it went through,
    and it went through all of them unless an exception stopped it. *)
Lemma cmp_loop_prefix (self : DataCategoryTyped) (dcObj : DataCategory)
    (ignoreOrder : bool) (relTol absTol : float) (l : list string) :
  forall rL same rL' err,
    cmp_loop self dcObj ignoreOrder relTol absTol l rL same = (rL', err) ->
    exists done rest,
      l = (done ++ rest)%list /\
      map fst rL' = (map fst rL ++ done)%list /\
      (err = None -> rest = []).
Proof.
  induction l as [|atName l IH]; intros rL same rL' err Hrun;
    cbn [cmp_loop] in Hrun.
  - inversion Hrun; subst. exists [], [].
    split; [reflexivity|]. split; [now rewrite app_nil_r | reflexivity].
  - destruct (bind _ _) as [b|e].
    + apply IH in Hrun as (done & rest & -> & Hnames & Hrest).
      exists (atName :: done), rest. split; [reflexivity|].
      split; [|exact Hrest].
      rewrite Hnames, map_app. cbn [map fst]. now rewrite <- app_assoc.
    + inversion Hrun; subst. exists [], (atName :: l).
      split; [reflexivity|]. split; [now rewrite app_nil_r | discriminate].
Qed.

(** X9: a result of [cmpAttributeValues] has one entry for each name of an
    initial part of the list of common names, in the order of the list and
    with no other name; when [raiseExceptions] is set, a call that returns
    has an entry for every common name. *)
Theorem cmp_result_names (self : DataCategoryTyped) (dcObj : DataCategory)
    (ignoreOrder : bool) (floatRelTolerance floatAbsTolerance : float)
    (atNameComList : list string) (rL : list (string * bool)) :
  cmpAttributeValues self dcObj ignoreOrder floatRelTolerance floatAbsTolerance
    atNameComList = Ok rL ->
  (exists rest, atNameComList = (map fst rL ++ rest)%list) /\
  (raiseExceptions self = true -> map fst rL = atNameComList).
Proof.
  unfold cmpAttributeValues.
  destruct (negb (getRowCount self =? getRowCount dcObj)%nat).
  { intros E. injection E as <-.
    assert (Hnames : map fst (map (fun atName : string => (atName, false))
                                  atNameComList) = atNameComList).
    { rewrite map_map. cbn [fst]. apply map_id. }
    rewrite Hnames. split; [exists []; now rewrite app_nil_r | reflexivity]. }
  destruct (cmp_loop _ _ _ _ _ atNameComList [] None) as [rL' err] eqn:Hloop.
  apply cmp_loop_prefix in Hloop as (done & rest & -> & Hnames & Hrest).
  cbn [map app] in Hnames.
  destruct err as [e|].
  - destruct (raiseExceptions self); [discriminate|].
    intros E. injection E as <-. rewrite Hnames.
    split; [now exists rest | discriminate].
  - intros E. injection E as <-. rewrite Hnames, (Hrest eq_refl), app_nil_r.
    split; [exists []; now rewrite app_nil_r | reflexivity].
Qed.

Lemma cmp_result_names_witness :
  (exists rest, ["details"; "length"] = (map fst [("details", true)] ++ rest)%list) /\
  (raiseExceptions example_left = true ->
   map fst [("details", true)] = ["details"; "length"]).
Proof.
  apply (cmp_result_names example_left example_right true
           floatRelTolerance_default floatAbsTolerance_default
           ["details"; "length"] [("details", true)]).
  reflexivity.
Defined.

(** * Further properties of the string pass, of aborted passes and of the
      constructor *)

(** The columns a run of the string pass completes are in string form. *)
Lemma string_pass_completed `{B : Builtins} (HB : str_faithful B)
    (atNames : list string) :
  forall (pre : list string) (self : DataCategoryTyped) (ok : bool)
         (self1 : DataCategoryTyped) (ok1 : bool),
    getAttributeList self = (pre ++ atNames)%list ->
    string_columns (length pre) self ->
    for_columns applyStringTypes_column (length pre) atNames (self, ok)
      = ((self1, ok1), None) ->
    string_columns (length pre + length atNames) self1.
Proof.
  induction atNames as [|atName atNames IH]; intros pre self ok self1 ok1
    Hattrs Hcols Hrun.
  - cbn in Hrun. inversion Hrun; subst. cbn [length]. now rewrite Nat.add_0_r.
  - cbn [for_columns] in Hrun.
    pose proof (applyStringTypes_column_env (length pre) atName (self, ok)) as Henv.
    destruct (applyStringTypes_column (length pre) atName (self, ok))
      as [[self' ok'] [e|]] eqn:Ecol; [discriminate|]. cbn [fst] in Henv.
    assert (Hname : getAttributeList self !! length pre = Some atName).
    { rewrite Hattrs. now apply list_lookup_middle. }
    apply (applyStringTypes_column_done HB _ _ _ _ _ _ Hcols Hname) in Ecol
      as (Hcols' & ->).
    specialize (IH (pre ++ [atName])%list self' true self1 ok1).
    rewrite length_app in IH. cbn [length] in IH.
    replace (length pre + 1)%nat with (S (length pre)) in IH by lia.
    cbn [length].
    replace (length pre + S (length atNames))%nat
      with (S (length pre) + length atNames)%nat by lia.
    apply IH; [|exact Hcols'|exact Hrun].
    destruct Henv as (_ & _ & -> & _). rewrite Hattrs. now rewrite <- app_assoc.
Qed.

(** X10: after a string pass that runs to its end, the recorded type of
    every attribute is "string" and every cell of its column is a string;
    a cell that reads "." or "?" is the marker of its column, so that a
    mandatory column holds no "?" and any other column no ".". *)
Theorem applyStringTypes_all_strings `{B : Builtins} (self : DataCategoryTyped)
    (self' : DataCategoryTyped) (ok : bool) :
  str_faithful B ->
  for_columns applyStringTypes_column 0 (getAttributeList self) (self, false)
    = ((self', ok), None) ->
  forall ii atName, getAttributeList self !! ii = Some atName ->
    exists dataType isMandatory,
      __getAttributeInfo self atName = Ok (dataType, isMandatory) /\
      attributeTypeD self' !! atName = Some "string" /\
      forall row, row ∈ data self' ->
        exists s, row !! ii = Some (VStr s) /\
                  (s = "." \/ s = "?" -> VStr s = marker isMandatory).
Proof.
  intros HB Hrun ii atName Hname.
  pose proof (for_columns_env _ applyStringTypes_column_env
                (getAttributeList self) 0%nat (self, false)) as Henv.
  rewrite Hrun in Henv. cbn [fst] in Henv.
  pose proof (string_pass_completed HB (getAttributeList self) [] self false
                self' ok eq_refl) as Hcols.
  cbn [length Nat.add] in Hcols.
  destruct (Hcols (fun j a Hj => match Nat.nlt_0_r j Hj with end) Hrun ii atName)
    as (dataType & isMandatory & Hinfo & Htype & Hrows).
  { now apply lookup_lt_Some in Hname. }
  { now destruct Henv as (_ & _ & -> & _). }
  exists dataType, isMandatory.
  split; [now rewrite <- (getAttributeInfo_env self self' atName Henv)|].
  split; [exact Htype|].
  intros row Hrow. destruct (Hrows row Hrow) as (c & Hc & [-> | (s & -> & Hdot & Hq)]).
  - destruct isMandatory; eexists; (split; [exact Hc | reflexivity]).
  - exists s. split; [exact Hc|]. intros [->| ->]; contradiction.
Qed.

Lemma applyStringTypes_all_strings_witness :
  exists dataType isMandatory,
    __getAttributeInfo example_cell "details" = Ok (dataType, isMandatory) /\
    attributeTypeD (fst (applyStringTypes (H := example_builtins) example_cell))
      !! "details" = Some "string" /\
    forall row,
      row ∈ data (fst (applyStringTypes (H := example_builtins) example_cell)) ->
      exists s, row !! 2%nat = Some (VStr s) /\
                (s = "." \/ s = "?" -> VStr s = marker isMandatory).
Proof.
  refine (applyStringTypes_all_strings (B := example_builtins) example_cell
            _ true example_str_faithful _ 2%nat "details" _);
    vm_compute; reflexivity.
Defined.

Lemma for_columns_app
    (body : nat -> string -> pass_state -> pass_state * option exn)
    (l1 l2 : list string) :
  forall k st,
    for_columns body k (l1 ++ l2) st =
    match for_columns body k l1 st with
    | (st', None) => for_columns body (k + length l1) l2 st'
    | (st', Some e) => (st', Some e)
    end.
Proof.
  induction l1 as [|atName l1 IH]; intros k st.
  - cbn [app for_columns length]. now rewrite Nat.add_0_r.
  - cbn [app for_columns length].
    destruct (body k atName st) as [st' [e|]]; [reflexivity|].
    rewrite IH. now replace (k + S (length l1))%nat with (S k + length l1)%nat by lia.
Qed.

(** X11: when the dictionary fails on a column, the casting pass stops
    there and nothing is rolled back: the object is the one the pass over
    the columns before it left, in which the cells from that column on are
    as they were.  The exception is re-raised when [raiseExceptions] is
    set; otherwise the call returns [True] if a column came before the
    failing one and [False] if none did. *)
Theorem applyTypes_abort_at_column `{B : Builtins} (self : DataCategoryTyped)
    (ignoreCastErrors useCifUnknowns : bool)
    (missingValueString missingValueInteger missingValueFloat : pyval)
    (pre post : list string) (atName : string)
    (self1 : DataCategoryTyped) (ok1 : bool) (e : exn) :
  getAttributeList self = (pre ++ atName :: post)%list ->
  for_columns
    (applyTypes_column ignoreCastErrors useCifUnknowns missingValueString
       missingValueInteger missingValueFloat)
    0 pre (self, false) = ((self1, ok1), None) ->
  __getAttributeInfo self atName = Raise e ->
  applyTypes self ignoreCastErrors useCifUnknowns
    missingValueString missingValueInteger missingValueFloat
  = (self1, if raiseExceptions self then Raise e
            else Ok (match pre with [] => false | _ => true end)) /\
  Forall2 (fun row row' => forall j, (length pre <= j)%nat -> row' !! j = row !! j)
    (data self) (data self1).
Proof.
  intros Hattrs Hpre Hinfo.
  pose proof (applyTypes_columns_cells _ _ _ _ _ _ _ _ _ _ _ Hpre)
    as (Henv & _ & Hcells).
  pose proof (applyTypes_columns_types _ _ _ _ _ _ _ _ _ _ _ Hpre)
    as (_ & _ & Hok).
  split.
  - unfold applyTypes, applyTypes_loop.
    rewrite Hattrs, for_columns_app, Hpre. cbn [for_columns].
    unfold applyTypes_column at 1.
    rewrite (getAttributeInfo_env self self1 atName Henv), Hinfo.
    cbn [finish_pass]. destruct Henv as (_ & _ & _ & ->). now rewrite Hok.
  - eapply Forall2_impl; [exact Hcells|].
    intros row row' (_ & _ & Hout) j Hj. apply Hout. right. cbn. lia.
Qed.

Lemma applyTypes_abort_at_column_witness :
  applyTypes (H := example_builtins)
    (example_typed false ["ordinal"; "unknown"; "length"] example_rows)
    false true VNone VNone VNone
  = (fst (fst (for_columns
                 (applyTypes_column (H := example_builtins)
                    false true VNone VNone VNone)
                 0 ["ordinal"]
                 (example_typed false ["ordinal"; "unknown"; "length"] example_rows,
                  false))),
     if raiseExceptions
          (example_typed false ["ordinal"; "unknown"; "length"] example_rows)
     then Raise TypeError
     else Ok (match ["ordinal"] with [] => false | _ => true end)) /\
  Forall2
    (fun row row' =>
       forall j, (length ["ordinal"] <= j)%nat -> row' !! j = row !! j)
    (data (example_typed false ["ordinal"; "unknown"; "length"] example_rows))
    (data (fst (fst (for_columns
                       (applyTypes_column (H := example_builtins)
                          false true VNone VNone VNone)
                       0 ["ordinal"]
                       (example_typed false ["ordinal"; "unknown"; "length"]
                          example_rows, false))))).
Proof.
  apply (applyTypes_abort_at_column (B := example_builtins)
           (example_typed false ["ordinal"; "unknown"; "length"] example_rows)
           false true VNone VNone VNone ["ordinal"] ["length"] "unknown"
           _ true TypeError).
  - reflexivity.
  - vm_compute. reflexivity.
  - reflexivity.
Defined.

Lemma missing_value_marker (missingValueString missingValueInteger
    missingValueFloat : pyval) (dataType : string) (isMandatory : bool) :
  missing_value true missingValueString missingValueInteger missingValueFloat
    dataType isMandatory = marker isMandatory.
Proof. reflexivity. Qed.

(** X12: a typed category cannot be made without a dictionary from a
    table that has attributes unless [raiseExceptions] is unset: the
    constructor raises [AttributeError].  With [raiseExceptions] unset it
    makes an object whose rows are those of the table, untouched, with an
    empty type record and [False] as its types-set flag. *)
Theorem init_without_dictionary `{B : Builtins} (dataCategoryObj : DataCategory)
    (raiseExc copyInputData ignoreCastErrors useCifUnknowns : bool)
    (missingValueString missingValueInteger missingValueFloat : pyval) :
  getAttributeList dataCategoryObj <> [] ->
  __init__ dataCategoryObj None raiseExc copyInputData ignoreCastErrors
    useCifUnknowns missingValueString missingValueInteger missingValueFloat
  = if raiseExc then Raise AttributeError
    else Ok ({| dc := dataCategoryObj; dApi := None;
                raiseExceptions := false; attributeTypeD := ∅ |}, false).
Proof.
  intros Hattrs. destruct dataCategoryObj as [name atNames rows].
  cbn in Hattrs. destruct atNames as [|atName atNames]; [contradiction|].
  now destruct raiseExc.
Qed.

Lemma init_without_dictionary_witness :
  __init__ (H := example_builtins) (dc example_cell) None true true false true
    VNone VNone VNone
  = if true then Raise AttributeError
    else Ok ({| dc := dc example_cell; dApi := None;
                raiseExceptions := false; attributeTypeD := ∅ |}, false).
Proof.
  apply (init_without_dictionary (B := example_builtins) (dc example_cell)
           true true false true VNone VNone VNone).
  discriminate.
Defined.

(** X13: when the constructor returns, with [raiseExceptions] and
    [useCifUnknowns] set as by default, the object has the name, the
    attribute list and the shape of the table it was made from; for every
    attribute the type is recorded and is the one [getAttributeInfo]
    reports, and every cell of the column is a value of that type or the
    marker of the column ("." if mandatory, "?" if not). *)
Theorem init_typed `{B : Builtins} (dataCategoryObj : DataCategory)
    (dictionaryApi : option DictionaryApi)
    (copyInputData ignoreCastErrors : bool)
    (missingValueString missingValueInteger missingValueFloat : pyval)
    (self' : DataCategoryTyped) (typesSet : bool) :
  __init__ dataCategoryObj dictionaryApi true copyInputData ignoreCastErrors
    true missingValueString missingValueInteger missingValueFloat
  = Ok (self', typesSet) ->
  getName self' = getName dataCategoryObj /\
  getAttributeList self' = getAttributeList dataCategoryObj /\
  same_shape (data dataCategoryObj) (data self') /\
  forall ii atName, getAttributeList dataCategoryObj !! ii = Some atName ->
    exists dataType isMandatory,
      getAttributeInfo self' atName = Ok (Some dataType, Some isMandatory) /\
      attributeTypeD self' !! atName = Some dataType /\
      forall row, row ∈ data self' ->
        exists c, row !! ii = Some c /\
                  (has_type dataType c = true \/ c = marker isMandatory).
Proof.
  unfold __init__.
  set (self := {| dc := _; dApi := dictionaryApi |}).
  destruct (applyTypes self _ _ _ _ _) as [self1 r] eqn:Hrun.
  destruct r as [b|e]; [|discriminate]. cbn [bind].
  intros E. inversion E; subst. clear E.
  apply (applyTypes_returns_completed self _ _ _ _ _ _ _ eq_refl) in Hrun.
  unfold applyTypes_loop in Hrun.
  pose proof (applyTypes_columns_cells _ _ _ _ _ _ _ _ _ _ _ Hrun)
    as (Henv & Hinfos & Hcells).
  pose proof (applyTypes_columns_types _ _ _ _ _ _ _ _ _ _ _ Hrun)
    as (Htypes & _ & _).
  pose proof Henv as (_ & Hname & Hattrs & _).
  split; [exact Hname|]. split; [exact Hattrs|]. split.
  { eapply Forall2_impl; [exact Hcells|]. now intros row row' (Hlen & _). }
  intros ii atName Hii. change (getAttributeList self !! ii = Some atName) in Hii.
  rewrite Forall_forall in Hinfos.
  destruct (Hinfos atName) as [[dataType isMandatory] Hinfo].
  { now apply list_elem_of_lookup_2 in Hii. }
  exists dataType, isMandatory. split; [|split].
  - unfold getAttributeInfo.
    now rewrite (getAttributeInfo_env self self' atName Henv), Hinfo.
  - apply (Htypes atName dataType isMandatory); [|exact Hinfo].
    now apply list_elem_of_lookup_2 in Hii.
  - intros row' Hrow'. apply list_elem_of_lookup_1 in Hrow' as [r Hr].
    destruct (Forall2_lookup_r _ _ _ _ _ Hcells Hr) as (row & _ & _ & Hin & _).
    destruct (Hin ii atName) as (dt & m & v & Hi & _ & Hv); [lia | |].
    { now rewrite Nat.sub_0_r. }
    rewrite Hinfo in Hi. injection Hi as <- <-.
    eexists. split; [exact Hv|]. rewrite missing_value_marker.
    apply cast_value_typed.
Qed.

Lemma init_typed_witness :
  exists self' typesSet,
    __init__ (H := example_builtins) (dc example_cell) (Some example_api)
      true true false true VNone VNone VNone = Ok (self', typesSet) /\
    getName self' = getName (dc example_cell) /\
    getAttributeList self' = getAttributeList (dc example_cell) /\
    same_shape (data (dc example_cell)) (data self') /\
    forall ii atName, getAttributeList (dc example_cell) !! ii = Some atName ->
      exists dataType isMandatory,
        getAttributeInfo self' atName = Ok (Some dataType, Some isMandatory) /\
        attributeTypeD self' !! atName = Some dataType /\
        forall row, row ∈ data self' ->
          exists c, row !! ii = Some c /\
                    (has_type dataType c = true \/ c = marker isMandatory).
Proof.
  eexists _, _. split; [vm_compute; reflexivity|].
  apply (init_typed (B := example_builtins) (dc example_cell) (Some example_api)
           true false VNone VNone VNone _ true).
  vm_compute. reflexivity.
Defined.

(** * Running a pass twice *)

(** A pass whose column body extends a column invariant [cols], leaves a
    column under the invariant as it is, and stops again where it stopped,
    gives the same object and the same result when run on its own
    result. *)
Section PassTwice.
Variable body : nat -> string -> pass_state -> pass_state * option exn.
Variable cols : nat -> DataCategoryTyped -> Prop.

Hypothesis body_env : forall ii atName (st : pass_state),
  same_env (fst st) (fst (fst (body ii atName st))).
Hypothesis body_fix : forall n k atName self ok,
  cols n self -> (k < n)%nat -> getAttributeList self !! k = Some atName ->
  body k atName (self, ok) = ((self, true), None).
Hypothesis body_done : forall k atName self self' ok ok',
  cols k self -> getAttributeList self !! k = Some atName ->
  body k atName (self, ok) = ((self', ok'), None) ->
  cols (S k) self' /\ ok' = true.
Hypothesis body_stopped : forall k atName self self' ok ok' e,
  cols k self ->
  body k atName (self, ok) = ((self', ok'), Some e) ->
  cols k self' /\ ok' = ok /\ body k atName (self', ok') = ((self', ok'), Some e).

Lemma pass_first (atNames : list string) :
  forall (pre : list string) (self : DataCategoryTyped) (ok : bool)
         (self1 : DataCategoryTyped) (ok1 : bool) (err : option exn),
    getAttributeList self = (pre ++ atNames)%list ->
    cols (length pre) self ->
    for_columns body (length pre) atNames (self, ok) = ((self1, ok1), err) ->
    exists done rest,
      atNames = (done ++ rest)%list /\
      cols (length pre + length done) self1 /\
      same_env self self1 /\
      ok1 = match done with [] => ok | _ => true end /\
      for_columns body (length pre + length done) rest (self1, ok1)
        = ((self1, ok1), err).
Proof.
  induction atNames as [|atName atNames IH];
    intros pre self ok self1 ok1 err Hattrs Hcols Hrun.
  - cbn in Hrun. inversion Hrun; subst. clear Hrun.
    exists [], []. cbn [length app]. rewrite Nat.add_0_r.
    split; [reflexivity|]. split; [assumption|].
    split; [apply same_env_refl|]. split; reflexivity.
  - cbn [for_columns] in Hrun.
    pose proof (body_env (length pre) atName (self, ok)) as Henv.
    destruct (body (length pre) atName (self, ok))
      as [[self' ok'] [e|]] eqn:Ecol; cbn [fst] in Henv.
    + inversion Hrun; subst. clear Hrun.
      apply (body_stopped _ _ _ _ _ _ _ Hcols) in Ecol as (Hcols' & -> & Hrerun).
      exists [], (atName :: atNames). cbn [length app]. rewrite Nat.add_0_r.
      split; [reflexivity|]. split; [assumption|]. split; [assumption|].
      split; [reflexivity|]. cbn [for_columns]. now rewrite Hrerun.
    + assert (Hname : getAttributeList self !! length pre = Some atName).
      { rewrite Hattrs. now apply list_lookup_middle. }
      apply (body_done _ _ _ _ _ _ Hcols Hname) in Ecol as (Hcols' & ->).
      specialize (IH (pre ++ [atName])%list self' true self1 ok1 err).
      rewrite length_app in IH. cbn [length] in IH.
      replace (length pre + 1)%nat with (S (length pre)) in IH by lia.
      destruct IH as (done & rest & -> & Hdone & Henv' & Hok & Hrest);
        [|exact Hcols'|exact Hrun|].
      { destruct Henv as (_ & _ & -> & _). rewrite Hattrs.
        now rewrite <- app_assoc. }
      exists (atName :: done), rest. cbn [length app].
      replace (length pre + S (length done))%nat
        with (S (length pre) + length done)%nat by lia.
      split; [reflexivity|]. split; [assumption|].
      split; [now apply (same_env_trans _ _ _ Henv)|].
      split; [now destruct done | assumption].
Qed.

Lemma pass_second (todo : list string) :
  forall (done rest : list string) (n : nat) (self : DataCategoryTyped) (ok : bool),
    getAttributeList self = (done ++ todo ++ rest)%list ->
    (length done + length todo = n)%nat ->
    cols n self ->
    for_columns body (length done) (todo ++ rest) (self, ok)
    = for_columns body n rest (self, match todo with [] => ok | _ => true end).
Proof.
  induction todo as [|atName todo IH]; intros done rest n self ok Hattrs Hlen Hcols.
  - cbn in Hlen. rewrite Nat.add_0_r in Hlen. now subst.
  - cbn [app for_columns]. cbn [length] in Hlen.
    rewrite (body_fix n (length done) atName self ok Hcols);
      [|lia|rewrite Hattrs; now apply list_lookup_middle].
    specialize (IH (done ++ [atName])%list rest n self true).
    rewrite length_app in IH. cbn [length] in IH.
    replace (length done + 1)%nat with (S (length done)) in IH by lia.
    rewrite IH; [now destruct todo | now rewrite <- app_assoc | lia | exact Hcols].
Qed.

Lemma pass_twice (self : DataCategoryTyped) :
  cols 0 self ->
  let r := for_columns body 0 (getAttributeList self) (self, false) in
  for_columns body 0 (getAttributeList (fst (fst r))) (fst (fst r), false) = r.
Proof.
  intros Hzero r. subst r.
  destruct (for_columns body 0 (getAttributeList self) (self, false))
    as [[self1 ok1] err] eqn:Hfirst. cbn [fst].
  destruct (pass_first (getAttributeList self) [] self false self1 ok1 err
              eq_refl Hzero Hfirst)
    as (done & rest & Hsplit & Hcols & Henv & Hok & Hrest).
  cbn [length Nat.add] in Hcols, Hrest.
  destruct Henv as (_ & _ & Hattrs & _). rewrite Hattrs, Hsplit.
  pose proof (pass_second done [] rest (length done) self1 false) as Hsecond.
  cbn [length app Nat.add] in Hsecond.
  rewrite Hsecond; [| now rewrite Hattrs, Hsplit | reflexivity | exact Hcols].
  rewrite <- Hok. exact Hrest.
Qed.
End PassTwice.

Section CastTwice.
Context `{B : Builtins} (HC : casts_stable B).
Variables (ignoreCastErrors : bool).
Variables (missingValueString missingValueInteger missingValueFloat : pyval).

Let column := applyTypes_column ignoreCastErrors true
                missingValueString missingValueInteger missingValueFloat.

Lemma is_missing_marker (isMandatory : bool) : is_missing (marker isMandatory) = true.
Proof. now destruct isMandatory. Qed.

(** What the pass stores is a [typed_cell]. *)
Lemma cast_value_typed_cell (dataType : string) (isMandatory : bool) (v : pyval) :
  typed_cell dataType isMandatory (cast_value dataType (marker isMandatory) v).
Proof.
  unfold cast_value. destruct (is_missing v) eqn:Hmiss; [now left|].
  unfold castD.
  destruct (String.eqb dataType "integer") eqn:Ei; cbn [bind].
  { destruct (py_int v); cbn [bind]; [right | now left]. now split. }
  destruct (String.eqb dataType "float") eqn:Ef; cbn [bind].
  { destruct (py_float v); cbn [bind]; [right | now left]. now split. }
  destruct (String.eqb dataType "string") eqn:Es; cbn [bind]; [|now left].
  destruct (py_str v) as [s|e] eqn:Hstr; cbn [bind]; [right | now left].
  split; [exact Es|].
  unfold is_missing. cbn [is_None orb].
  destruct (py_in (VStr s) [VStr "."; VStr "?"]) eqn:Hin; [|reflexivity].
  assert (Hs : s = "." \/ s = "?").
  { unfold py_in in Hin. cbn [existsb py_eq] in Hin.
    rewrite orb_false_r in Hin. apply orb_true_iff in Hin as [H|H];
      apply String.eqb_eq in H; auto. }
  pose proof (str_not_marker B (str_stable B HC) v s Hstr Hs) as ->.
  unfold is_missing in Hmiss. cbn [is_None orb] in Hmiss. congruence.
Qed.

(** A [typed_cell] is stored again as it is. *)
Lemma cast_value_stable (dataType : string) (isMandatory : bool) (c : pyval) :
  typed_cell dataType isMandatory c ->
  cast_value dataType (marker isMandatory) c = c.
Proof.
  unfold cast_value. intros [-> | [Htype Hmiss]].
  - now rewrite is_missing_marker.
  - rewrite Hmiss. destruct c as [|s|z|f]; cbn [has_type] in Htype;
      [discriminate| | |]; apply String.eqb_eq in Htype; subst dataType;
      unfold castD; cbn [String.eqb Ascii.eqb Bool.eqb bind].
    + now rewrite (str_of_str B (str_stable B HC) s).
    + now rewrite (int_of_int B HC z).
    + now rewrite (float_of_float B HC f).
Qed.

Lemma cast_row_stable (dataType : string) (isMandatory : bool) (k : nat)
    (row : list pyval) (c : pyval) :
  row !! k = Some c -> typed_cell dataType isMandatory c ->
  cast_row ignoreCastErrors dataType (marker isMandatory) k row = Ok row.
Proof.
  intros Hc Hcell.
  rewrite (cast_row_some _ true VNone VNone VNone _ _ _ _ c Hc).
  rewrite (cast_value_stable _ _ _ Hcell). now rewrite (list_insert_id _ _ _ Hc).
Qed.

Lemma cast_row_typed (dataType : string) (isMandatory : bool) (k : nat)
    (row row' : list pyval) :
  cast_row ignoreCastErrors dataType (marker isMandatory) k row = Ok row' ->
  exists c, row' = <[k := c]> row /\ (k < length row)%nat /\
            typed_cell dataType isMandatory c.
Proof.
  intros Hrow.
  apply (cast_row_ok _ true VNone VNone VNone) in Hrow as (v & Hv & ->).
  eexists. split; [reflexivity|].
  split; [now apply lookup_lt_Some in Hv | apply cast_value_typed_cell].
Qed.

Lemma cast_row_idem (dataType : string) (isMandatory : bool) (k : nat)
    (row row' : list pyval) :
  cast_row ignoreCastErrors dataType (marker isMandatory) k row = Ok row' ->
  cast_row ignoreCastErrors dataType (marker isMandatory) k row' = Ok row'.
Proof.
  intros Hrow. apply cast_row_typed in Hrow as (c & -> & Hlt & Hcell).
  apply (cast_row_stable dataType isMandatory k _ c); [|assumption].
  now apply list_lookup_insert_eq.
Qed.

Lemma applyTypes_column_fix (n k : nat) (atName : string)
    (self : DataCategoryTyped) (ok : bool) :
  typed_columns n self -> (k < n)%nat ->
  getAttributeList self !! k = Some atName ->
  column k atName (self, ok) = ((self, true), None).
Proof.
  intros Hcols Hk Hname.
  destruct (Hcols k atName Hk Hname) as (dataType & isMandatory & Hinfo & Htype & Hrows).
  unfold column, applyTypes_column. rewrite Hinfo, missing_value_marker.
  rewrite (for_rows_fix _ (data self)).
  - now rewrite set_data_id, (set_type_id self atName dataType Htype).
  - intros row Hrow. destruct (Hrows row Hrow) as (c & Hc & Hcell).
    now apply (cast_row_stable dataType isMandatory k row c).
Qed.

Lemma applyTypes_column_done (k : nat) (atName : string)
    (self self' : DataCategoryTyped) (ok ok' : bool) :
  typed_columns k self ->
  getAttributeList self !! k = Some atName ->
  column k atName (self, ok) = ((self', ok'), None) ->
  typed_columns (S k) self' /\ ok' = true.
Proof.
  intros Hcols Hname. unfold column, applyTypes_column.
  destruct (__getAttributeInfo self atName) as [[dataType isMandatory]|e] eqn:Hinfo;
    [|discriminate].
  rewrite missing_value_marker.
  destruct (for_rows _ (data self)) as [rows [e|]] eqn:Hrows; [discriminate|].
  intros E. inversion E; subst. clear E. split; [|reflexivity].
  apply for_rows_ok in Hrows.
  intros j aj Hj Hnamej. cbn in Hnamej.
  destruct (decide (j = k)) as [->|Hne].
  - rewrite Hname in Hnamej. injection Hnamej as <-.
    exists dataType, isMandatory. split; [exact Hinfo|].
    split; [apply lookup_insert_eq|].
    intros row' Hrow'. cbn in Hrow'.
    apply list_elem_of_lookup_1 in Hrow' as [r Hr].
    destruct (Forall2_lookup_r _ _ _ _ _ Hrows Hr) as (row & _ & Hrow).
    apply cast_row_typed in Hrow as (c & -> & Hlt & Hcell).
    exists c. split; [now apply list_lookup_insert_eq | assumption].
  - destruct (Hcols j aj) as (dt & m & Hi & Ht & Hcells); [lia|assumption|].
    exists dt, m. split; [exact Hi|]. split.
    + cbn. destruct (decide (atName = aj)) as [->|Hna].
      * rewrite Hinfo in Hi. injection Hi as <- <-. apply lookup_insert_eq.
      * now rewrite lookup_insert_ne.
    + intros row' Hrow'. cbn in Hrow'.
      apply list_elem_of_lookup_1 in Hrow' as [r Hr].
      destruct (Forall2_lookup_r _ _ _ _ _ Hrows Hr) as (row & Hrow0 & Hrow).
      apply cast_row_typed in Hrow as (c & -> & Hlt & Hcell).
      destruct (Hcells row) as (c' & Hc' & Hcell').
      { now apply list_elem_of_lookup_2 in Hrow0. }
      exists c'. split; [|assumption].
      now rewrite list_lookup_insert_ne by lia.
Qed.

Lemma applyTypes_column_stopped (k : nat) (atName : string)
    (self self' : DataCategoryTyped) (ok ok' : bool) (e : exn) :
  typed_columns k self ->
  column k atName (self, ok) = ((self', ok'), Some e) ->
  typed_columns k self' /\ ok' = ok /\
  column k atName (self', ok') = ((self', ok'), Some e).
Proof.
  intros Hcols. unfold column, applyTypes_column.
  destruct (__getAttributeInfo self atName) as [[dataType isMandatory]|e1] eqn:Hinfo.
  - rewrite missing_value_marker.
    destruct (for_rows _ (data self)) as [rows [e2|]] eqn:Hrows; [|discriminate].
    intros E. inversion E; subst. clear E.
    split; [|split; [reflexivity|]].
    + intros j aj Hj Hnamej. cbn in Hnamej.
      destruct (Hcols j aj Hj Hnamej) as (dt & m & Hi & Ht & Hcells).
      exists dt, m. split; [exact Hi|]. split; [exact Ht|].
      intros row' Hrow'. cbn in Hrow'.
      destruct (for_rows_elem _ _ _ _ Hrows row' Hrow') as [Hin | (row & Hin & Hrow)].
      * now apply Hcells.
      * apply cast_row_typed in Hrow as (c & -> & Hlt & Hcell).
        destruct (Hcells row Hin) as (c' & Hc' & Hcell').
        exists c'. split; [|assumption].
        now rewrite list_lookup_insert_ne by lia.
    + change (__getAttributeInfo (set_data self rows) atName)
        with (__getAttributeInfo self atName).
      rewrite Hinfo, missing_value_marker. cbn [data dc set_data].
      rewrite (for_rows_rerun _ _ _ _ (cast_row_idem dataType isMandatory k) Hrows).
      reflexivity.
  - intros E. inversion E; subst. clear E.
    split; [assumption|]. split; [reflexivity|]. now rewrite Hinfo.
Qed.

(** The column loop with the markers in use, run on its own result. *)
Lemma applyTypes_loop_twice (self : DataCategoryTyped) :
  let r := for_columns column 0 (getAttributeList self) (self, false) in
  for_columns column 0 (getAttributeList (fst (fst r))) (fst (fst r), false) = r.
Proof.
  apply (pass_twice column typed_columns).
  - intros ii atName st. apply applyTypes_column_env.
  - apply applyTypes_column_fix.
  - apply applyTypes_column_done.
  - apply applyTypes_column_stopped.
  - intros j a Hj. lia.
Qed.
End CastTwice.

Lemma applyTypes_marker_parameters `{B : Builtins} (self : DataCategoryTyped)
    (flag flag' : bool)
    (missingValueString missingValueInteger missingValueFloat : pyval)
    (missingValueString' missingValueInteger' missingValueFloat' : pyval) :
  applyTypes self flag' true
    missingValueString' missingValueInteger' missingValueFloat'
  = applyTypes self flag true
      missingValueString missingValueInteger missingValueFloat.
Proof.
  unfold applyTypes, applyTypes_loop. f_equal.
  apply for_columns_ext. intros ii atName [self0 ok].
  unfold applyTypes_column.
  destruct (__getAttributeInfo self0 atName) as [[dataType isMandatory]|e];
    [|reflexivity].
  rewrite !missing_value_marker.
  now rewrite (for_rows_ext _ _ (data self0)
                 (cast_row_any_flag flag' flag dataType (marker isMandatory) ii)).
Qed.

(** The example conversions return a value of their own type as it is. *)
Lemma example_casts_stable : casts_stable example_builtins.
Proof. split; [reflexivity | reflexivity | exact example_str_faithful]. Qed.

(** X14: with [useCifUnknowns] set, a second casting pass changes nothing:
    applied to the object a first pass left, with any [ignoreCastErrors]
    and any missing-value defaults, [applyTypes] gives the same object
    (cells and recorded types) and the same result, also when the first
    pass stopped at an exception.  The built-in conversions are assumed
    to return a value of their own type as it is. *)
Theorem applyTypes_twice_with_markers `{B : Builtins} (self : DataCategoryTyped)
    (flag flag' : bool)
    (missingValueString missingValueInteger missingValueFloat : pyval)
    (missingValueString' missingValueInteger' missingValueFloat' : pyval) :
  casts_stable B ->
  applyTypes
    (fst (applyTypes self flag true
            missingValueString missingValueInteger missingValueFloat))
    flag' true missingValueString' missingValueInteger' missingValueFloat'
  = applyTypes self flag true
      missingValueString missingValueInteger missingValueFloat.
Proof.
  intros HC.
  rewrite (applyTypes_marker_parameters _ flag flag'
             missingValueString missingValueInteger missingValueFloat).
  unfold applyTypes, applyTypes_loop. rewrite finish_pass_fst. f_equal.
  apply (applyTypes_loop_twice HC).
Qed.

Lemma applyTypes_twice_with_markers_witness :
  applyTypes (H := example_builtins)
    (fst (applyTypes (H := example_builtins) example_cell false true
            VNone VNone VNone))
    true true (VStr "n/a") (VInt 0) (VFloat 0)
  = applyTypes (H := example_builtins) example_cell false true VNone VNone VNone.
Proof.
  apply (applyTypes_twice_with_markers (B := example_builtins) example_cell
           false true VNone VNone VNone (VStr "n/a") (VInt 0) (VFloat 0)).
  exact example_casts_stable.
Defined.

(** Without the markers a second pass can change a cell: the substitute
    "7" of the integer column is text after the first pass and an integer
    after the second. *)
Example applyTypes_twice_without_markers :
  let once := fst (applyTypes (H := example_builtins) example_cell
                     false false VNone (VStr "7") VNone) in
  let twice := fst (applyTypes (H := example_builtins) once
                      false false VNone (VStr "7") VNone) in
  data once = [ [VInt 3; VFloat 0x1.8p+0; VStr "x"]; [VStr "7"; VNone; VNone] ] /\
  data twice = [ [VInt 3; VFloat 0x1.8p+0; VStr "x"]; [VInt 7; VNone; VNone] ].
Proof. vm_compute. split; reflexivity. Qed.

(** * Comparing a category with itself *)

Lemma getAttributeInfo_types (self : DataCategoryTyped) (atName dataType : string)
    (isMandatory : bool) :
  __getAttributeInfo self atName = Ok (dataType, isMandatory) ->
  dataType = "integer" \/ dataType = "float" \/ dataType = "string".
Proof.
  unfold __getAttributeInfo. destruct (dApi self) as [api|]; [|discriminate].
  destruct (getTypeCode api _ _) as [tc|e]; [|discriminate].
  destruct (getTypePrimitive api _ _) as [tp|e]; [|discriminate].
  destruct (getMandatoryCode api _ _) as [mc|e]; [|discriminate].
  cbn [bind]. destruct (py_contains_str "int" tc) as [isInt|e]; [|discriminate].
  cbn [bind].
  destruct (str_in atName difficult_attributes), isInt,
    (py_eq tp (VStr "numb")); intros E; injection E as <- _; auto.
Qed.

Lemma isClose_self (v : pyval) (relTol absTol : float) :
  not_nan v -> __isClose v v relTol absTol = Ok true.
Proof.
  intros Hnan. unfold __isClose.
  destruct (is_None v); [reflexivity|]. cbn [andb negb].
  now rewrite (py_eq_refl v Hnan).
Qed.

Lemma list_eq_self (l : list pyval) : Forall not_nan l -> list_eq l l = true.
Proof.
  induction 1 as [|v l Hv _ IH]; [reflexivity|].
  cbn [list_eq]. now rewrite (py_eq_refl v Hv), IH.
Qed.

Lemma close_self_pairs (l : list pyval) (relTol absTol : float) :
  Forall not_nan l ->
  Forall (fun p => __isClose (fst p) (snd p) relTol absTol = Ok true) (combine l l).
Proof.
  induction 1 as [|v l Hv _ IH]; [constructor|].
  cbn [combine]. constructor; [now apply isClose_self | exact IH].
Qed.

Lemma index_of_elem (x : string) (l : list string) :
  x ∈ l -> exists i, index_of x l = Ok i /\ (i < length l)%nat.
Proof.
  induction l as [|y l IH]; intros Hin; [now apply elem_of_nil in Hin|].
  cbn [index_of]. destruct (String.eqb y x) eqn:Eyx.
  - exists 0%nat. split; [reflexivity | cbn; lia].
  - apply elem_of_cons in Hin as [->|Hin].
    + now rewrite String.eqb_refl in Eyx.
    + destruct (IH Hin) as (i & -> & Hi). exists (S i).
      split; [reflexivity | cbn; lia].
Qed.

Lemma column_values_full (idx : nat) (rows : list (list pyval)) :
  Forall (fun row => (idx < length row)%nat) rows ->
  Forall (Forall not_nan) rows ->
  exists vs, column_values idx rows = Ok vs /\
             length vs = length rows /\ Forall not_nan vs.
Proof.
  induction 1 as [|row rows Hrow _ IH]; intros Hnan.
  - exists []. repeat split. constructor.
  - inversion Hnan as [|? ? Hrn Hrsn]; subst.
    destruct (IH Hrsn) as (vs & Hvs & Hlen & Hvn).
    destruct (lookup_lt_is_Some_2 row idx Hrow) as [v Hv].
    exists (v :: vs). cbn [column_values]. unfold getitem. rewrite Hv, Hvs.
    split; [reflexivity|]. split; [cbn; now rewrite Hlen|].
    constructor; [|exact Hvn].
    rewrite Forall_forall in Hrn. apply Hrn. now apply list_elem_of_lookup_2 in Hv.
Qed.

(** One column of a category compared with itself, in the given order. *)
Lemma cmp_column_self (self : DataCategoryTyped) (relTol absTol : float)
    (same : option bool) (atName : string) :
  data self <> [] ->
  Forall (fun row => (length (getAttributeList self) <= length row)%nat) (data self) ->
  Forall (Forall not_nan) (data self) ->
  atName ∈ getAttributeList self ->
  (exists info, __getAttributeInfo self atName = Ok info) ->
  cmp_column self self false relTol absTol same atName = Ok (Some true).
Proof.
  intros Hrows Hrect Hnan Hin [[dataType isMandatory] Hinfo].
  destruct (index_of_elem atName _ Hin) as (idx & Hidx & Hlt).
  destruct (column_values_full idx (data self)) as (vs & Hvs & Hlen & Hvn).
  { eapply Forall_impl; [exact Hrect|]. cbn. intros row Hrow. lia. }
  { exact Hnan. }
  assert (Hget : getAttributeValueList self atName = Ok vs).
  { unfold getAttributeValueList. now rewrite Hidx. }
  unfold cmp_column. rewrite Hinfo. cbn [bind fst]. rewrite !Hget. cbn [bind].
  destruct (getAttributeInfo_types _ _ _ _ Hinfo) as [->|[->| ->]]; cbn.
  - now rewrite (list_eq_self vs Hvn).
  - rewrite (close_loop_all_close _ _ _ _ (close_self_pairs vs relTol absTol Hvn)).
    destruct vs as [|v vs]; [|reflexivity].
    destruct (data self); [contradiction | discriminate].
  - now rewrite (list_eq_self vs Hvn).
Qed.

Lemma cmp_loop_self (self : DataCategoryTyped) (relTol absTol : float)
    (l : list string) :
  data self <> [] ->
  Forall (fun row => (length (getAttributeList self) <= length row)%nat) (data self) ->
  Forall (Forall not_nan) (data self) ->
  Forall (fun atName => atName ∈ getAttributeList self /\
                        exists info, __getAttributeInfo self atName = Ok info) l ->
  forall rL same,
    cmp_loop self self false relTol absTol l rL same
    = ((rL ++ map (fun atName => (atName, true)) l)%list, None).
Proof.
  intros Hrows Hrect Hnan Hl.
  induction Hl as [|atName l [Hin Hinfo] _ IH]; intros rL same.
  - cbn. now rewrite app_nil_r.
  - cbn [cmp_loop map].
    rewrite (cmp_column_self self relTol absTol same atName Hrows Hrect Hnan Hin Hinfo).
    cbn [bind read_same]. rewrite IH. now rewrite <- app_assoc.
Qed.

(** X15: a category that has a row, a cell for every attribute in every
    row and no NaN among its cells compares equal to itself in every
    column whose name resolves, when the values are compared in their
    order ([ignoreOrder] unset). *)
Theorem cmp_self_all_equal (self : DataCategoryTyped)
    (floatRelTolerance floatAbsTolerance : float) (atNameComList : list string) :
  data self <> [] ->
  Forall (fun row => (length (getAttributeList self) <= length row)%nat) (data self) ->
  Forall (Forall not_nan) (data self) ->
  Forall (fun atName => atName ∈ getAttributeList self /\
                        exists info, __getAttributeInfo self atName = Ok info)
    atNameComList ->
  cmpAttributeValues self self false floatRelTolerance floatAbsTolerance
    atNameComList
  = Ok (map (fun atName => (atName, true)) atNameComList).
Proof.
  intros Hrows Hrect Hnan Hl. unfold cmpAttributeValues.
  rewrite Nat.eqb_refl. cbn [negb].
  now rewrite (cmp_loop_self self floatRelTolerance floatAbsTolerance
                 atNameComList Hrows Hrect Hnan Hl).
Qed.

Lemma cmp_self_all_equal_witness :
  cmpAttributeValues example_cast_cell example_cast_cell false
    floatRelTolerance_default floatAbsTolerance_default
    ["details"; "ordinal"; "length"]
  = Ok (map (fun atName => (atName, true)) ["details"; "ordinal"; "length"]).
Proof.
  apply (cmp_self_all_equal example_cast_cell
           floatRelTolerance_default floatAbsTolerance_default
           ["details"; "ordinal"; "length"]).
  - discriminate.
  - repeat constructor.
  - repeat constructor; intros f E;
      first [discriminate E | injection E as <-; reflexivity].
  - repeat constructor;
      first [ now apply (bool_decide_unpack _) | eexists; reflexivity ].
Defined.

(** * The comparison reads the dictionary, not the recorded types *)




